(** * travelplanner frontend: creator dashboard, template discovery and the
  global API error handler, embedded as pure state-passing functions.

  Sources embedded here:
  - [frontend/src/main.tsx]                      (module [Main])
  - [frontend/src/routes/_layout/creator.tsx]    (module [Creator])
  - [frontend/src/routes/_layout/templates.tsx]  (module [Templates])

  React state hooks become record fields, event handlers become functions
  from a component state to a new state plus the list of effects they
  perform (toasts, mutations, cache invalidations), and a render function
  returns the tag of the branch of JSX that the component returns. *)

From Stdlib Require Import ZArith List Bool Ascii String Lia.
From stdpp Require Import base strings gmap list.
Import ListNotations.

Local Open Scope string_scope.
Local Open Scope Z_scope.

(* ===================================================================== *)
(** ** JavaScript values, as far as the three files use them *)
(* ===================================================================== *)

Module Js.

(** Values of type [any]: the form's [core_experience] and
    [flexible_logistics], and an [ApiError]'s [body]. An object keeps its
    properties in insertion order. *)
#[warnings="-register-all"]
Inductive JsValue : Type :=
| JsUndefined
| JsNull
| JsBool (b : bool)
| JsNumber (n : Z)
| JsString (s : string)
| JsObject (props : list (string * JsValue)).

(** Emptiness of a JS string ([!s] on a value of type [string]). *)
Definition str_truthy (s : string) : bool :=
  match s with
  | EmptyString => false
  | String _ _ => true
  end.

(** ECMAScript ToBoolean. Every object is truthy, the one without
    properties included. *)
Definition truthy (v : JsValue) : bool :=
  match v with
  | JsUndefined => false
  | JsNull => false
  | JsBool b => b
  | JsNumber n => negb (n =? 0)
  | JsString s => str_truthy s
  | JsObject _ => true
  end.

(** [a || b] *)
Definition js_or (a b : JsValue) : JsValue :=
  if truthy a then a else b.

(** [s || fallback] where both sides are strings. *)
Definition str_or (s fallback : string) : string :=
  if str_truthy s then s else fallback.

(** [s || undefined] on a string. *)
Definition str_or_undefined (s : string) : option string :=
  if str_truthy s then Some s else None.

Fixpoint assoc (k : string) (props : list (string * JsValue)) : JsValue :=
  match props with
  | [] => JsUndefined
  | (k', v) :: rest => if String.eqb k k' then v else assoc k rest
  end.

(** [v?.k]: undefined on undefined and null, the property otherwise
    (primitives have none of the properties read in these files). *)
Definition opt_get (v : JsValue) (k : string) : JsValue :=
  match v with
  | JsObject props => assoc k props
  | _ => JsUndefined
  end.

(** The object literal [{}]. *)
Definition empty_object : JsValue := JsObject [].

End Js.

Import Js.

(* ===================================================================== *)
(** ** main.tsx: the global API error handler *)
(* ===================================================================== *)

Module Main.

(** The argument of [toaster.create]. *)
Record Toast : Type := mkToast {
  toast_title : string;
  toast_description : JsValue;
  toast_type : string;
  toast_duration : Z
}.

(** What [handleApiError] can touch: [localStorage], [window.location.href]
    and the toaster. *)
Record Browser : Type := mkBrowser {
  localStorage : gmap string string;
  location_href : string;
  toasts : list Toast
}.

(** [error: Error]; [instanceof ApiError] is the constructor test. *)
Inductive JsError : Type :=
| ApiError (status : Z) (body : JsValue) (message : string)
| PlainError (message : string).

Definition handleApiError (error : JsError) (w : Browser) : Browser :=
  match error with
  | ApiError status body _ =>
      if status =? 401 then
        {| localStorage := delete "access_token" (localStorage w);
           location_href := "/login";
           toasts := toasts w |}
      else if status =? 403 then
        let errorDetail :=
          js_or (opt_get body "detail") (JsString "Access forbidden") in
        {| localStorage := localStorage w;
           location_href := location_href w;
           toasts := toasts w ++
             [ {| toast_title := "Access Denied";
                  toast_description := errorDetail;
                  toast_type := "error";
                  toast_duration := 6000 |} ] |}
      else w
  | PlainError _ => w
  end.

(** [new QueryClient({ queryCache: new QueryCache({ onError }),
    mutationCache: new MutationCache({ onError }) })]: the two caches every
    [useQuery] and [useMutation] of the application reports to. *)
Record QueryClient : Type := mkQueryClient {
  queryCache_onError : JsError -> Browser -> Browser;
  mutationCache_onError : JsError -> Browser -> Browser
}.

Definition queryClient : QueryClient :=
  {| queryCache_onError := handleApiError;
     mutationCache_onError := handleApiError |}.

(** Where a failure comes from. *)
Inductive Origin : Type := FromQuery | FromMutation.

(** The cache of the failing operation calls its [onError]. *)
Definition report (c : QueryClient) (o : Origin) : JsError -> Browser -> Browser :=
  match o with
  | FromQuery => queryCache_onError c
  | FromMutation => mutationCache_onError c
  end.

(** [OpenAPI.TOKEN]: [localStorage.getItem("access_token") || ""]. *)
Definition token (w : Browser) : string :=
  match localStorage w !! "access_token" with
  | Some t => str_or t ""
  | None => ""
  end.

(** [error.message] *)
Definition message_of (e : JsError) : string :=
  match e with
  | ApiError _ _ message => message
  | PlainError message => message
  end.

Definition status_of (e : JsError) : option Z :=
  match e with
  | ApiError status _ _ => Some status
  | PlainError _ => None
  end.

End Main.

(* ===================================================================== *)
(** ** What a component sees of a TanStack query *)
(* ===================================================================== *)

Module Query.

(** The three fields the components destructure from [useQuery]:
    [data] is [T | undefined], [error] is [Error | null]. *)
Record QueryResult (T : Type) : Type := mkQueryResult {
  data : option T;
  isLoading : bool;
  error : option Main.JsError
}.

Arguments mkQueryResult {T} _ _ _.
Arguments data {T} _.
Arguments isLoading {T} _.
Arguments error {T} _.

(** Life of a query that is fetched once and not retried ([retry: false]):
    in flight, failed, or answered. *)
Inductive Fetch (T : Type) : Type :=
| InFlight
| Failed (e : Main.JsError)
| Answered (response : T).

Arguments InFlight {T}.
Arguments Failed {T} _.
Arguments Answered {T} _.

(** The observer result of such a query. *)
Definition observe {T : Type} (f : Fetch T) : QueryResult T :=
  match f with
  | InFlight => {| data := None; isLoading := true; error := None |}
  | Failed e => {| data := None; isLoading := false; error := Some e |}
  | Answered r => {| data := Some r; isLoading := false; error := None |}
  end.

(** Truthiness of [T | undefined] and [Error | null] when [T] is an object
    type: objects are truthy, [undefined] and [null] are not. *)
Definition defined {A : Type} (o : option A) : bool :=
  match o with
  | Some _ => true
  | None => false
  end.

End Query.

Import Query.

(* ===================================================================== *)
(** ** routes/_layout/creator.tsx *)
(* ===================================================================== *)

Module Creator.

(** State of [useState] at line 29; [core_experience] and
    [flexible_logistics] have type [any] in [TemplateCreationFormProps]. *)
Record TemplateFormData : Type := mkTemplateFormData {
  title : string;
  description : string;
  creator_notes : string;
  core_experience : JsValue;
  flexible_logistics : JsValue
}.

(** [formData] of [CreatorSetup] (line 290). *)
Record ProfileFormData : Type := mkProfileFormData {
  username : string;
  display_name : string;
  bio : string
}.

(** The fields of the creator profile that the dashboard reads. *)
Record CreatorPublic : Type := mkCreatorPublic {
  creator_display_name : string;
  creator_status : string
}.

(** Everything the handlers of this file do besides setting state. *)
Inductive Effect : Type :=
| PreventDefault
| ShowSuccessToast (message : string)
| ShowErrorToast (message : string)
| InvalidateQueries (queryKey : list string)
| CreateTripTemplate (requestBody : TemplateFormData)
| CreateCreatorProfile (requestBody : ProfileFormData)
| GetMyTemplates (skip limit : Z).

Record DashboardState : Type := mkDashboardState {
  showTemplateForm : bool;
  templateFormData : TemplateFormData
}.

(** The argument of both [useState] (line 29) and the reset (line 66). *)
Definition emptyTemplateFormData : TemplateFormData :=
  {| title := "";
     description := "";
     creator_notes := "";
     core_experience := empty_object;
     flexible_logistics := empty_object |}.

Definition initialDashboardState : DashboardState :=
  {| showTemplateForm := false;
     templateFormData := emptyTemplateFormData |}.

Definition profileQueryKey : list string := ["creator"; "profile"].
Definition templatesQueryKey : list string := ["creator"; "templates"].

(** [enabled: !!creator] of the templates query (line 55). *)
Definition templatesQueryEnabled (profile : QueryResult CreatorPublic) : bool :=
  defined (data profile).

(** The requests the templates query may send in a render: its [queryFn]
    (line 54) when enabled, none otherwise. *)
Definition templatesQueryRequests (profile : QueryResult CreatorPublic) : list Effect :=
  if templatesQueryEnabled profile then [GetMyTemplates 0 10] else [].

(** [createTemplateMutation.mutate(data)] runs [mutationFn] (line 60). *)
Definition createTemplateMutation_mutate (d : TemplateFormData) : list Effect :=
  [CreateTripTemplate d].

(** [onSuccess] of [createTemplateMutation] (lines 62-73). *)
Definition createTemplateMutation_onSuccess (st : DashboardState)
  : DashboardState * list Effect :=
  ({| showTemplateForm := false;
      templateFormData :=
        {| title := "";
           description := "";
           creator_notes := "";
           core_experience := empty_object;
           flexible_logistics := empty_object |} |},
   [ShowSuccessToast "Template created successfully";
    InvalidateQueries ["creator"; "templates"]]).

(** [onError] of [createTemplateMutation] (lines 74-76). *)
Definition createTemplateMutation_onError (e : Main.JsError) (st : DashboardState)
  : DashboardState * list Effect :=
  (st, [ShowErrorToast (str_or (Main.message_of e) "Failed to create template")]).

(** The object literal of line 89. *)
Definition fabricated_core_experience (fd : TemplateFormData) : JsValue :=
  JsObject [("destination", JsString (title fd))].

(** The object literal of line 90. *)
Definition fabricated_flexible_logistics : JsValue :=
  JsObject [("duration", JsString "7 days")].

(** [templateData] of lines 87-91. *)
Definition templateData (fd : TemplateFormData) : TemplateFormData :=
  {| title := title fd;
     description := description fd;
     creator_notes := creator_notes fd;
     core_experience :=
       js_or (core_experience fd) (fabricated_core_experience fd);
     flexible_logistics :=
       js_or (flexible_logistics fd) fabricated_flexible_logistics |}.

(** Lines 79-94. *)
Definition handleTemplateSubmit (st : DashboardState)
  : DashboardState * list Effect :=
  let fd := templateFormData st in
  if negb (str_truthy (title fd)) || negb (str_truthy (description fd)) then
    (st, [PreventDefault; ShowErrorToast "Please fill in all required fields"])
  else
    (st, PreventDefault :: createTemplateMutation_mutate (templateData fd)).

(** What the user and the mutation can do to the dashboard. The three
    [Change] events are the [onChange] handlers of [TemplateCreationForm]
    (lines 496, 509, 523), the only callers of [setFormData]. *)
Inductive Event : Type :=
| ClickCreateTemplate
| ClickCancel
| ChangeTitle (value : string)
| ChangeDescription (value : string)
| ChangeCreatorNotes (value : string)
| SubmitTemplateForm
| CreateTemplateSucceeded
| CreateTemplateFailed (e : Main.JsError).

Definition setFormData (st : DashboardState) (fd : TemplateFormData)
  : DashboardState :=
  {| showTemplateForm := showTemplateForm st; templateFormData := fd |}.

Definition setShowTemplateForm (st : DashboardState) (b : bool)
  : DashboardState :=
  {| showTemplateForm := b; templateFormData := templateFormData st |}.

Definition step (st : DashboardState) (ev : Event)
  : DashboardState * list Effect :=
  let fd := templateFormData st in
  match ev with
  | ClickCreateTemplate => (setShowTemplateForm st true, [])
  | ClickCancel => (setShowTemplateForm st false, [])
  | ChangeTitle v =>
      (setFormData st
         {| title := v;
            description := description fd;
            creator_notes := creator_notes fd;
            core_experience := core_experience fd;
            flexible_logistics := flexible_logistics fd |}, [])
  | ChangeDescription v =>
      (setFormData st
         {| title := title fd;
            description := v;
            creator_notes := creator_notes fd;
            core_experience := core_experience fd;
            flexible_logistics := flexible_logistics fd |}, [])
  | ChangeCreatorNotes v =>
      (setFormData st
         {| title := title fd;
            description := description fd;
            creator_notes := v;
            core_experience := core_experience fd;
            flexible_logistics := flexible_logistics fd |}, [])
  | SubmitTemplateForm => handleTemplateSubmit st
  | CreateTemplateSucceeded => createTemplateMutation_onSuccess st
  | CreateTemplateFailed e => createTemplateMutation_onError e st
  end.

(** A session: the events in order, the effects concatenated. *)
Fixpoint run (st : DashboardState) (evs : list Event)
  : DashboardState * list Effect :=
  match evs with
  | [] => (st, [])
  | ev :: rest =>
      let '(st1, out1) := step st ev in
      let '(st2, out2) := run st1 rest in
      (st2, (out1 ++ out2)%list)
  end.

(** Both mappings of the form are still the [{}] of line 33 and 34. *)
Definition mappings_empty (st : DashboardState) : Prop :=
  core_experience (templateFormData st) = empty_object
  /\ flexible_logistics (templateFormData st) = empty_object.

(** The branch of JSX that [CreatorDashboard] returns (lines 96-120). *)
Inductive View : Type :=
| LoadingView
| CreatorSetupView
| TemplateCreationFormView (formData : TemplateFormData)
| DashboardView (creator : CreatorPublic).

Definition CreatorDashboard (profile : QueryResult CreatorPublic)
  (st : DashboardState) : View :=
  if isLoading profile then LoadingView
  else if defined (error profile) || negb (defined (data profile)) then
    CreatorSetupView
  else if showTemplateForm st then
    TemplateCreationFormView (templateFormData st)
  else
    (* [creator] is narrowed to a profile here; the guard above has
       returned for [undefined] *)
    match data profile with
    | Some creator => DashboardView creator
    | None => CreatorSetupView
    end.

(** The profile lookup answered 404: the caller has no creator profile. *)
Definition profile_not_found (profile : QueryResult CreatorPublic) : Prop :=
  isLoading profile = false
  /\ data profile = None
  /\ exists body message, error profile = Some (Main.ApiError 404 body message).

(** [createCreatorMutation.mutate(data)] runs [mutationFn] (line 300). *)
Definition createCreatorMutation_mutate (d : ProfileFormData) : list Effect :=
  [CreateCreatorProfile d].

(** [handleSubmit] of [CreatorSetup] (lines 311-318). *)
Definition handleSubmit (formData : ProfileFormData)
  : ProfileFormData * list Effect :=
  if negb (str_truthy (username formData))
     || negb (str_truthy (display_name formData)) then
    (formData,
     [PreventDefault; ShowErrorToast "Please fill in all required fields"])
  else
    (formData, PreventDefault :: createCreatorMutation_mutate formData).

End Creator.

(* ===================================================================== *)
(** ** routes/_layout/templates.tsx *)
(* ===================================================================== *)

Module Templates.

(** [template.creator] as the card reads it (lines 117-128). *)
Record CreatorSnapshot : Type := mkCreatorSnapshot {
  display_name : string;
  username : string
}.

(** One element of [templatesData.data]. *)
Record TripTemplatePublic : Type := mkTripTemplatePublic {
  id : string;
  title : string;
  description : string;
  status : string;
  views_count : Z;
  creator : option CreatorSnapshot;
  core_experience : JsValue
}.

(** The response of [discoverTemplates]. *)
Record TripTemplatesPublic : Type := mkTripTemplatesPublic {
  data : list TripTemplatePublic;
  count : Z
}.

(** The argument of [TemplatesService.discoverTemplates]; [search] is
    [string | undefined]. *)
Record DiscoverRequest : Type := mkDiscoverRequest {
  skip : Z;
  limit : Z;
  search : option string
}.

(** The call inside [queryFn] (lines 33-38), for the current value of the
    [search] state. *)
Definition discoverRequest (searchState : string) : DiscoverRequest :=
  {| skip := 0;
     limit := 20;
     search := str_or_undefined searchState |}.

(** A card of the grid: its badge is the literal of line 103. *)
Record Card : Type := mkCard {
  card_badge : string;
  card_views : Z;
  card_title : string;
  card_description : string;
  card_creator : option CreatorSnapshot
}.

Definition card (t : TripTemplatePublic) : Card :=
  {| card_badge := "Published";
     card_views := views_count t;
     card_title := title t;
     card_description := description t;
     card_creator := creator t |}.

(** The branch of the conditional of lines 65-169. *)
Inductive View : Type :=
| LoadingView
| ErrorView (text : string)
| EmptyView (heading hint : string)
| GridView (cards : list Card).

(** [templatesData?.data?.length === 0] *)
Definition no_items (d : option TripTemplatesPublic) : bool :=
  match d with
  | Some page => (length (data page) =? 0)%nat
  | None => false
  end.

(** [templatesData?.data?.map(...)]; nothing is rendered for [undefined]. *)
Definition cards (d : option TripTemplatesPublic) : list Card :=
  match d with
  | Some page => map card (data page)
  | None => []
  end.

Definition TemplateDiscovery (q : QueryResult TripTemplatesPublic)
  (searchState : string) : View :=
  if isLoading q then LoadingView
  else if defined (error q) then ErrorView "Failed to load templates"
  else if no_items (Query.data q) then
    EmptyView "No templates found"
              (if str_truthy searchState
               then "Try adjusting your search terms"
               else "No templates available yet")
  else GridView (cards (Query.data q)).

End Templates.

(* ===================================================================== *)
(** ** The Discovery Service behind [discoverTemplates] *)
(* ===================================================================== *)

(** Modelled from the spec: the backend route behind [discoverTemplates] is
    not among the sources, so this module follows sections 3 and 4.3 of the
    specification: the two record types, the published-and-not-suspended
    filter, the search filter, the ordering and the pagination. *)
Module Discovery.

(** Modelled from the spec: [Creator.status] of section 3. *)
Inductive CreatorStatus : Type := pending | active | suspended.

(** Modelled from the spec: [TripTemplate.status] of section 3. *)
Inductive TemplateStatus : Type := draft | published.

(** Modelled from the spec: the Creator record of section 3, without its
    commission rate, which discovery does not read. *)
Record Creator : Type := mkCreator {
  creator_id_of : Z;
  user_id : Z;
  username : string;
  display_name : string;
  bio : option string;
  creator_status : CreatorStatus
}.

(** Modelled from the spec: the TripTemplate record of section 3. *)
Record TripTemplate : Type := mkTripTemplate {
  id : Z;
  creator_id : Z;
  title : string;
  description : string;
  creator_notes : option string;
  core_experience : JsValue;
  flexible_logistics : JsValue;
  status : TemplateStatus;
  views_count : Z;
  created_at : Z
}.

(** Modelled from the spec: the persistence collaborator's two tables. *)
Record Store : Type := mkStore {
  creators : list Creator;
  templates : list TripTemplate
}.

(** Modelled from the spec: a returned item, the template with the
    snapshot of its creator's username and display name. *)
Record Discovered : Type := mkDiscovered {
  template : TripTemplate;
  by_username : string;
  by_display_name : string
}.

(** Modelled from the spec: [{items, total_count}]. *)
Record Page : Type := mkPage {
  items : list Discovered;
  total_count : nat
}.

Definition is_published (s : TemplateStatus) : bool :=
  match s with
  | published => true
  | draft => false
  end.

Definition is_suspended (s : CreatorStatus) : bool :=
  match s with
  | suspended => true
  | _ => false
  end.

(** Modelled from the spec: comparison without case, on ASCII letters. *)
Definition lower_ascii (c : ascii) : ascii :=
  let n := nat_of_ascii c in
  if ((65 <=? n) && (n <=? 90))%nat then ascii_of_nat (n + 32) else c.

Fixpoint lower (s : string) : string :=
  match s with
  | EmptyString => EmptyString
  | String c rest => String (lower_ascii c) (lower rest)
  end.

(** Modelled from the spec: substring match. *)
Fixpoint contains (needle hay : string) : bool :=
  String.prefix needle hay ||
  match hay with
  | EmptyString => false
  | String _ rest => contains needle rest
  end.

Definition icontains (needle hay : string) : bool :=
  contains (lower needle) (lower hay).

(** Modelled from the spec: the search filter of section 4.3, applied only
    when [search] is provided and non-empty: title or description contains
    the term, compared without case. *)
Definition matches (search : option string) (t : TripTemplate) : bool :=
  match search with
  | None => true
  | Some term =>
      if str_truthy term
      then icontains term (title t) || icontains term (description t)
      else true
  end.

(** Modelled from the spec: the owning Creator of a template, if the
    reference resolves. *)
Definition owner (db : Store) (t : TripTemplate) : option Creator :=
  find (fun c => creator_id_of c =? creator_id t) (creators db).

(** Modelled from the spec: a template is discoverable when it is published
    and its creator exists and is not suspended (section 3, invariants). *)
Definition discoverable (db : Store) (search : option string)
  (t : TripTemplate) : option (TripTemplate * Creator) :=
  match owner db t with
  | Some c =>
      if is_published (status t) && negb (is_suspended (creator_status c))
         && matches search t
      then Some (t, c)
      else None
  | None => None
  end.

(** Modelled from the spec: [created_at] descending, ties broken by [id]. *)
Definition newer_first (a b : TripTemplate * Creator) : bool :=
  (created_at (fst b) <? created_at (fst a))
  || ((created_at (fst a) =? created_at (fst b)) && (id (fst a) <=? id (fst b))).

Fixpoint insert_sorted (x : TripTemplate * Creator)
  (l : list (TripTemplate * Creator)) : list (TripTemplate * Creator) :=
  match l with
  | [] => [x]
  | y :: rest =>
      if newer_first x y then x :: y :: rest else y :: insert_sorted x rest
  end.

Definition sort_newest (l : list (TripTemplate * Creator))
  : list (TripTemplate * Creator) :=
  fold_right insert_sorted [] l.

(** Modelled from the spec: [skip] at least 0, [limit] clamped to 100. *)
Definition paginate {A : Type} (skip limit : Z) (l : list A) : list A :=
  firstn (Z.to_nat (Z.min (Z.max 0 limit) 100))
         (skipn (Z.to_nat (Z.max 0 skip)) l).

(** Modelled from the spec: the read-only join with the creator. *)
Definition enrich (p : TripTemplate * Creator) : Discovered :=
  {| template := fst p;
     by_username := username (snd p);
     by_display_name := display_name (snd p) |}.

(** Modelled from the spec: [discover({search?, skip, limit})] of section
    4.3; the backend route that implements it is not among the sources. *)
Definition discover (db : Store) (search : option string) (skip limit : Z)
  : Page :=
  let found := omap (discoverable db search) (templates db) in
  {| items := map enrich (paginate skip limit (sort_newest found));
     total_count := length found |}.

End Discovery.

(* ===================================================================== *)
(** ** Sample data used by the examples below *)
(* ===================================================================== *)

Module Samples.

(** A signed-in browser on the creator page. *)
Definition signed_in : Main.Browser :=
  {| Main.localStorage := {[ "access_token" := "eyJhbGciOi"; "theme" := "dark" ]};
     Main.location_href := "/creator";
     Main.toasts := [] |}.

Definition unauthorized : Main.JsError :=
  Main.ApiError 401 (JsObject [("detail", JsString "Could not validate credentials")])
                "Unauthorized".

Definition forbidden : Main.JsError :=
  Main.ApiError 403 (JsObject [("detail", JsString "Not enough privileges")])
                "Forbidden".

Definition not_found : Main.JsError :=
  Main.ApiError 404 (JsObject [("detail", JsString "Creator profile not found")])
                "Not Found".

Definition server_error : Main.JsError :=
  Main.ApiError 500 JsNull "Internal Server Error".

(** The template form with the title typed in and nothing else. *)
Definition title_only : Creator.DashboardState :=
  fst (Creator.run Creator.initialDashboardState
         [Creator.ClickCreateTemplate; Creator.ChangeTitle "7-Day Tokyo Adventure"]).

Definition profile_form : Creator.ProfileFormData :=
  {| Creator.username := "@wanderer";
     Creator.display_name := "Wanda Wanderer";
     Creator.bio := "" |}.

Definition profile_form_no_name : Creator.ProfileFormData :=
  {| Creator.username := "@wanderer";
     Creator.display_name := "";
     Creator.bio := "Slow travel" |}.

Definition wanda : Creator.CreatorPublic :=
  {| Creator.creator_display_name := "Wanda Wanderer";
     Creator.creator_status := "active" |}.

Definition no_templates : Templates.TripTemplatesPublic :=
  {| Templates.data := []; Templates.count := 0 |}.

(** The template form as a user can fill it in: title and description. *)
Definition filled_in : list Creator.Event :=
  [Creator.ClickCreateTemplate;
   Creator.ChangeTitle "7-Day Tokyo Adventure";
   Creator.ChangeDescription "A week of food and temples"].

Definition creator_wanda : Discovery.Creator :=
  {| Discovery.creator_id_of := 1; Discovery.user_id := 10;
     Discovery.username := "wanderer"; Discovery.display_name := "Wanda";
     Discovery.bio := None; Discovery.creator_status := Discovery.active |}.

Definition creator_banned : Discovery.Creator :=
  {| Discovery.creator_id_of := 2; Discovery.user_id := 20;
     Discovery.username := "spammer"; Discovery.display_name := "Spam";
     Discovery.bio := None; Discovery.creator_status := Discovery.suspended |}.

Definition a_template (i owner_id : Z) (name : string)
  (s : Discovery.TemplateStatus) (at_ : Z) : Discovery.TripTemplate :=
  {| Discovery.id := i; Discovery.creator_id := owner_id;
     Discovery.title := name; Discovery.description := "A trip";
     Discovery.creator_notes := None;
     Discovery.core_experience := JsObject [];
     Discovery.flexible_logistics := JsObject [];
     Discovery.status := s; Discovery.views_count := 0;
     Discovery.created_at := at_ |}.

Definition tokyo_published : Discovery.TripTemplate :=
  a_template 1 1 "7-Day Tokyo Adventure" Discovery.published 100.

Definition tokyo_draft : Discovery.TripTemplate :=
  a_template 2 1 "Tokyo on a Budget" Discovery.draft 200.

Definition paris_published : Discovery.TripTemplate :=
  a_template 3 1 "Paris Getaway" Discovery.published 300.

Definition tokyo_by_banned : Discovery.TripTemplate :=
  a_template 4 2 "Tokyo Nightlife" Discovery.published 400.

Definition store : Discovery.Store :=
  {| Discovery.creators := [creator_wanda; creator_banned];
     Discovery.templates :=
       [tokyo_published; tokyo_draft; paris_published; tokyo_by_banned] |}.

End Samples.

(* ===================================================================== *)
(** ** main.tsx: the handler over the failures of a session *)
(* ===================================================================== *)

Module MainSession.

(** The caches call [onError] once per failure, in the order the failures
    happen; [localStorage] and the toaster carry over from one call to the
    next. *)
Fixpoint handleAll (errors : list Main.JsError) (w : Main.Browser)
  : Main.Browser :=
  match errors with
  | [] => w
  | e :: rest => handleAll rest (Main.handleApiError e w)
  end.

(** [error instanceof ApiError && error.status === n] *)
Definition has_status (n : Z) (e : Main.JsError) : bool :=
  match e with
  | Main.ApiError status _ _ => status =? n
  | Main.PlainError _ => false
  end.

End MainSession.

(* ===================================================================== *)
(** ** creator.tsx: the [CreatorSetup] component *)
(* ===================================================================== *)

Module CreatorSetup.

(** The two [useState] of lines 289-294. *)
Record SetupState : Type := mkSetupState {
  showForm : bool;
  formData : Creator.ProfileFormData
}.

Definition initialSetupState : SetupState :=
  {| showForm := false;
     formData := {| Creator.username := "";
                    Creator.display_name := "";
                    Creator.bio := "" |} |}.

(** [onSuccess] of [createCreatorMutation] (lines 302-305). *)
Definition createCreatorMutation_onSuccess (st : SetupState)
  : SetupState * list Creator.Effect :=
  (st, [Creator.ShowSuccessToast "Creator profile created successfully";
        Creator.InvalidateQueries ["creator"; "profile"]]).

(** [onError] of [createCreatorMutation] (lines 306-308). *)
Definition createCreatorMutation_onError (e : Main.JsError) (st : SetupState)
  : SetupState * list Creator.Effect :=
  (st, [Creator.ShowErrorToast
          (str_or (Main.message_of e) "Failed to create creator profile")]).

(** The buttons and inputs of the component (lines 343, 356, 369, 380, 440),
    the form's [onSubmit], and the two outcomes of the mutation. *)
Inductive SetupEvent : Type :=
| ClickSetUp
| ClickBack
| ChangeUsername (value : string)
| ChangeDisplayName (value : string)
| ChangeBio (value : string)
| SubmitProfileForm
| CreateCreatorSucceeded
| CreateCreatorFailed (e : Main.JsError).

Definition setup_step (st : SetupState) (ev : SetupEvent)
  : SetupState * list Creator.Effect :=
  let fd := formData st in
  match ev with
  | ClickSetUp => ({| showForm := true; formData := fd |}, [])
  | ClickBack => ({| showForm := false; formData := fd |}, [])
  | ChangeUsername v =>
      ({| showForm := showForm st;
          formData := {| Creator.username := v;
                         Creator.display_name := Creator.display_name fd;
                         Creator.bio := Creator.bio fd |} |}, [])
  | ChangeDisplayName v =>
      ({| showForm := showForm st;
          formData := {| Creator.username := Creator.username fd;
                         Creator.display_name := v;
                         Creator.bio := Creator.bio fd |} |}, [])
  | ChangeBio v =>
      ({| showForm := showForm st;
          formData := {| Creator.username := Creator.username fd;
                         Creator.display_name := Creator.display_name fd;
                         Creator.bio := v |} |}, [])
  | SubmitProfileForm => (st, snd (Creator.handleSubmit fd))
  | CreateCreatorSucceeded => createCreatorMutation_onSuccess st
  | CreateCreatorFailed e => createCreatorMutation_onError e st
  end.

Fixpoint setup_run (st : SetupState) (evs : list SetupEvent)
  : SetupState * list Creator.Effect :=
  match evs with
  | [] => (st, [])
  | ev :: rest =>
      let '(st1, out1) := setup_step st ev in
      let '(st2, out2) := setup_run st1 rest in
      (st2, (out1 ++ out2)%list)
  end.

(** The two returns of the component (lines 320 and 402). *)
Inductive SetupView : Type :=
| ProfileFormView (formData : Creator.ProfileFormData)
| BecomeCreatorView.

Definition CreatorSetup (st : SetupState) : SetupView :=
  if showForm st then ProfileFormView (formData st) else BecomeCreatorView.

(** The events that are not an input's [onChange]. *)
Definition leaves_inputs (ev : SetupEvent) : bool :=
  match ev with
  | ChangeUsername _ | ChangeDisplayName _ | ChangeBio _ => false
  | _ => true
  end.

End CreatorSetup.

(* ===================================================================== *)
(** ** creator.tsx: the figures and the list of the dashboard *)
(* ===================================================================== *)

Module DashboardStats.

(** One element of [templatesData.data] as the dashboard reads it;
    [views_count] is read with a fallback ([t.views_count || 0]). *)
Record TemplateRow : Type := mkTemplateRow {
  id : string;
  title : string;
  status : string;
  views_count : option Z;
  created_at : string
}.

(** The response of [getMyTemplates]. *)
Record MyTemplates : Type := mkMyTemplates {
  data : list TemplateRow;
  count : Z
}.

(** [n || fallback] on integer counters: 0 is the falsy one. *)
Definition num_or (n fallback : Z) : Z :=
  if n =? 0 then fallback else n.

(** [t.views_count || 0] *)
Definition views (t : TemplateRow) : Z :=
  match views_count t with
  | Some n => num_or n 0
  | None => 0
  end.

(** [templatesData?.count || 0] (line 157). *)
Definition totalTemplates (d : option MyTemplates) : Z :=
  match d with
  | Some page => num_or (count page) 0
  | None => 0
  end.

Definition is_published_row (t : TemplateRow) : bool :=
  String.eqb (status t) "published".

(** [templatesData?.data?.filter(...).length || 0] (lines 168-169). *)
Definition publishedCount (d : option MyTemplates) : Z :=
  match d with
  | Some page =>
      num_or (Z.of_nat (length (List.filter is_published_row (data page)))) 0
  | None => 0
  end.

(** [templatesData?.data?.reduce(...) || 0] (lines 180-183). *)
Definition totalViews (d : option MyTemplates) : Z :=
  match d with
  | Some page =>
      num_or (fold_left (fun sum t => sum + views t) (data page) 0) 0
  | None => 0
  end.

(** A row of the "Recent Templates" box (lines 231-276). *)
Record RowCard : Type := mkRowCard {
  row_key : string;
  row_title : string;
  row_badge_color : string;
  row_badge : string;
  row_views : option Z;
  row_created : string
}.

Definition rowCard (t : TemplateRow) : RowCard :=
  {| row_key := id t;
     row_title := title t;
     row_badge_color := if is_published_row t then "green" else "gray";
     row_badge := status t;
     row_views := views_count t;
     row_created := created_at t |}.

(** The conditional of lines 214-279. *)
Inductive RecentView : Type :=
| RecentLoading
| RecentEmpty
| RecentList (rows : list RowCard).

(** [templatesData?.data?.length === 0] *)
Definition no_rows (d : option MyTemplates) : bool :=
  match d with
  | Some page => (length (data page) =? 0)%nat
  | None => false
  end.

(** [templatesData?.data?.slice(0, 5).map(...)] *)
Definition recentRows (d : option MyTemplates) : list RowCard :=
  match d with
  | Some page => map rowCard (firstn 5 (data page))
  | None => []
  end.

Definition recentTemplates (templatesLoading : bool) (d : option MyTemplates)
  : RecentView :=
  if templatesLoading then RecentLoading
  else if no_rows d then RecentEmpty
  else RecentList (recentRows d).

End DashboardStats.

(* ===================================================================== *)
(** ** creator.tsx: counting over a dashboard session *)
(* ===================================================================== *)

Module DashboardSession.

Definition is_create_request (e : Creator.Effect) : bool :=
  match e with
  | Creator.CreateTripTemplate _ => true
  | _ => false
  end.

Definition is_submit (ev : Creator.Event) : bool :=
  match ev with
  | Creator.SubmitTemplateForm => true
  | _ => false
  end.

(** The events that neither are an input's [onChange] nor the success of
    the mutation. *)
Definition leaves_inputs (ev : Creator.Event) : bool :=
  match ev with
  | Creator.ChangeTitle _ | Creator.ChangeDescription _
  | Creator.ChangeCreatorNotes _ | Creator.CreateTemplateSucceeded => false
  | _ => true
  end.

End DashboardSession.

(* ===================================================================== *)
(** ** templates.tsx: the badges of a card and the footer *)
(* ===================================================================== *)

Module TemplateCard.

(** [key.replace(/_/g, " ")] *)
Fixpoint replace_underscores (s : string) : string :=
  match s with
  | EmptyString => EmptyString
  | String c rest =>
      String (if Ascii.eqb c "_" then " "%char else c) (replace_underscores rest)
  end.

Section Badges.

(** [String.prototype.toUpperCase], left to the engine. *)
Variable toUpperCase : string -> string.

(** The text of one badge (line 141). *)
Definition tagLabel (key : string) : string :=
  toUpperCase (replace_underscores key).

(** Lines 137-143, for [keys] the result of
    [Object.keys(template.core_experience || {})]. *)
Definition tagBadges (keys : list string) : list string :=
  map tagLabel (firstn 3 keys).

End Badges.

(** Lines 144-152: the number in the "+N more" badge, when there is one. *)
Definition moreBadge (keys : list string) : option nat :=
  if (3 <? length keys)%nat then Some (length keys - 3)%nat else None.

(** Lines 172-179: the two numbers of "Showing N of M templates", when
    [templatesData] is there. *)
Definition statsFooter (d : option Templates.TripTemplatesPublic)
  : option (nat * Z) :=
  match d with
  | Some page => Some (length (Templates.data page), Templates.count page)
  | None => None
  end.

End TemplateCard.

(* ===================================================================== *)
(** ** More sample data *)
(* ===================================================================== *)

Module MoreSamples.

(** A user who fills in the form, submits, and sees the creation fail. *)
Definition failed_attempt : list Creator.Event :=
  [Creator.SubmitTemplateForm;
   Creator.CreateTemplateFailed Samples.server_error;
   Creator.ClickCancel;
   Creator.ClickCreateTemplate].


Definition typed_profile : CreatorSetup.SetupState :=
  {| CreatorSetup.showForm := true;
     CreatorSetup.formData := Samples.profile_form |}.

Definition row (i name st : string) (v : option Z) : DashboardStats.TemplateRow :=
  {| DashboardStats.id := i; DashboardStats.title := name;
     DashboardStats.status := st; DashboardStats.views_count := v;
     DashboardStats.created_at := "2025-01-01T00:00:00" |}.

Definition my_templates : DashboardStats.MyTemplates :=
  {| DashboardStats.data :=
       [row "a" "Tokyo" "published" (Some 12); row "b" "Paris" "draft" None;
        row "c" "Lima" "published" (Some 0); row "d" "Oslo" "draft" (Some 3);
        row "e" "Rome" "published" (Some 5); row "f" "Cairo" "draft" None];
     DashboardStats.count := 6 |}.

Definition one_template : Templates.TripTemplatesPublic :=
  {| Templates.data :=
       [ {| Templates.id := "t1"; Templates.title := "7-Day Tokyo Adventure";
            Templates.description := "A week of food and temples";
            Templates.status := "published"; Templates.views_count := 12;
            Templates.creator := None;
            Templates.core_experience :=
              JsObject [("destination", JsString "Tokyo")] |} ];
     Templates.count := 1 |}.

End MoreSamples.

(* ===================================================================== *)
(** * Properties *)
(* ===================================================================== *)

(** ** Truthiness *)

Lemma str_truthy_false (s : string) : str_truthy s = false <-> s = "".
Proof. destruct s; simpl; split; congruence. Qed.

Lemma str_truthy_true (s : string) : str_truthy s = true <-> s <> "".
Proof. destruct s; simpl; split; congruence. Qed.

Lemma js_or_truthy (a b : JsValue) : truthy a = true -> js_or a b = a.
Proof. unfold js_or. intros ->. reflexivity. Qed.

Lemma js_or_falsy (a b : JsValue) : truthy a = false -> js_or a b = b.
Proof. unfold js_or. intros ->. reflexivity. Qed.

Lemma empty_object_truthy : truthy empty_object = true.
Proof. reflexivity. Qed.

(** A required-field guard [!a || !b] fires exactly when one of the two
    strings is empty. *)
Lemma required_guard (a b : string) :
  negb (str_truthy a) || negb (str_truthy b) = true <-> a = "" \/ b = "".
Proof.
  rewrite orb_true_iff, !negb_true_iff, !str_truthy_false. reflexivity.
Qed.

Lemma required_guard_pass (a b : string) :
  negb (str_truthy a) || negb (str_truthy b) = false <-> a <> "" /\ b <> "".
Proof.
  rewrite orb_false_iff, !negb_false_iff, !str_truthy_true. reflexivity.
Qed.

(** ** main.tsx *)

Section GlobalErrorHandler.

Import Main.

Variable w : Browser.

Lemma handleApiError_401 (body : JsValue) (msg : string) :
  handleApiError (ApiError 401 body msg) w =
  {| localStorage := delete "access_token" (localStorage w);
     location_href := "/login";
     toasts := toasts w |}.
Proof. reflexivity. Qed.

Lemma handleApiError_403 (body : JsValue) (msg : string) :
  handleApiError (ApiError 403 body msg) w =
  {| localStorage := localStorage w;
     location_href := location_href w;
     toasts := toasts w ++
       [ {| toast_title := "Access Denied";
            toast_description :=
              js_or (opt_get body "detail") (JsString "Access forbidden");
            toast_type := "error";
            toast_duration := 6000 |} ] |}.
Proof. reflexivity. Qed.

Lemma handleApiError_other (e : JsError) :
  status_of e <> Some 401 -> status_of e <> Some 403 ->
  handleApiError e w = w.
Proof.
  destruct e as [status body msg | msg]; simpl; [ | reflexivity ].
  intros H401 H403.
  destruct (Z.eqb_spec status 401) as [-> | _]; [ congruence | ].
  destruct (Z.eqb_spec status 403) as [-> | _]; [ congruence | reflexivity ].
Qed.

(** Both caches of the one query client run the same handler. *)
Lemma report_is_handleApiError (o : Origin) :
  report queryClient o = handleApiError.
Proof. destruct o; reflexivity. Qed.

End GlobalErrorHandler.

(** C2: whichever query or mutation an error comes from, the query client
    hands it to [handleApiError]; on status 401 the [access_token] entry
    is deleted from local storage (the other entries stay) and the location
    becomes [/login], with no toast; on status 403 one "Access Denied" error
    toast is added while local storage and location stay as they were; on
    any other error, of any kind, the browser state is unchanged. *)
Theorem handleApiError_distinguishes_401_403 :
  forall (o : Main.Origin) (e : Main.JsError) (w : Main.Browser),
    let w' := Main.report Main.queryClient o e w in
    (Main.status_of e = Some 401 ->
       Main.localStorage w' !! "access_token" = None
       /\ (forall k, k <> "access_token" ->
             Main.localStorage w' !! k = Main.localStorage w !! k)
       /\ Main.token w' = ""
       /\ Main.location_href w' = "/login"
       /\ Main.toasts w' = Main.toasts w)
    /\ (Main.status_of e = Some 403 ->
       Main.localStorage w' = Main.localStorage w
       /\ Main.location_href w' = Main.location_href w
       /\ exists t, Main.toasts w' = (Main.toasts w ++ [t])%list
                    /\ Main.toast_title t = "Access Denied"
                    /\ Main.toast_type t = "error")
    /\ (Main.status_of e <> Some 401 -> Main.status_of e <> Some 403 ->
       w' = w).
Proof.
  intros o e w w'. subst w'. rewrite report_is_handleApiError.
  split; [ | split ].
  - destruct e as [status body msg | msg]; cbn [Main.status_of];
      [ | discriminate ].
    intros [= ->]. rewrite handleApiError_401. unfold Main.token. simpl.
    rewrite lookup_delete_eq. repeat split.
    intros k Hk. apply lookup_delete_ne. congruence.
  - destruct e as [status body msg | msg]; cbn [Main.status_of];
      [ | discriminate ].
    intros [= ->]. rewrite handleApiError_403. simpl.
    repeat split. eexists. repeat split.
  - intros H1 H3. apply handleApiError_other; assumption.
Qed.

Lemma handleApiError_distinguishes_401_403_witness :
  Main.localStorage
    (Main.report Main.queryClient Main.FromQuery Samples.unauthorized
                 Samples.signed_in) !! "access_token" = None
  /\ Main.localStorage
       (Main.report Main.queryClient Main.FromMutation Samples.forbidden
                    Samples.signed_in)
     = Main.localStorage Samples.signed_in
  /\ Main.report Main.queryClient Main.FromQuery Samples.server_error
                 Samples.signed_in
     = Samples.signed_in.
Proof.
  split; [ | split ].
  - apply (handleApiError_distinguishes_401_403
             Main.FromQuery Samples.unauthorized Samples.signed_in).
    reflexivity.
  - apply (handleApiError_distinguishes_401_403
             Main.FromMutation Samples.forbidden Samples.signed_in).
    reflexivity.
  - apply (handleApiError_distinguishes_401_403
             Main.FromQuery Samples.server_error Samples.signed_in);
      discriminate.
Defined.

(** ** creator.tsx: the two submit handlers *)

Section TemplateSubmit.

Import Creator.

Variable st : DashboardState.

Lemma handleTemplateSubmit_rejected :
  title (templateFormData st) = "" \/ description (templateFormData st) = "" ->
  handleTemplateSubmit st =
  (st, [PreventDefault; ShowErrorToast "Please fill in all required fields"]).
Proof.
  intros H. apply required_guard in H. unfold handleTemplateSubmit.
  cbv zeta. rewrite H. reflexivity.
Qed.

Lemma handleTemplateSubmit_accepted :
  title (templateFormData st) <> "" -> description (templateFormData st) <> "" ->
  handleTemplateSubmit st =
  (st, [PreventDefault; CreateTripTemplate (templateData (templateFormData st))]).
Proof.
  intros Ht Hd. unfold handleTemplateSubmit. cbv zeta.
  rewrite (proj2 (required_guard_pass _ _) (conj Ht Hd)). reflexivity.
Qed.

End TemplateSubmit.

(** C3: a template submission whose title or description is empty leaves
    the dashboard state as it was, shows the error toast "Please fill in all
    required fields" and does nothing else: in particular no
    create-template request is among its effects. *)
Theorem handleTemplateSubmit_empty_field_rejected :
  forall st : Creator.DashboardState,
    Creator.title (Creator.templateFormData st) = ""
    \/ Creator.description (Creator.templateFormData st) = "" ->
    fst (Creator.handleTemplateSubmit st) = st
    /\ snd (Creator.handleTemplateSubmit st) =
       [Creator.PreventDefault;
        Creator.ShowErrorToast "Please fill in all required fields"]
    /\ (forall body,
          ~ In (Creator.CreateTripTemplate body)
               (snd (Creator.handleTemplateSubmit st)))
    /\ fst (Creator.step st Creator.SubmitTemplateForm) = st.
Proof.
  intros st H. cbn [Creator.step].
  rewrite (handleTemplateSubmit_rejected st H). cbn [fst snd].
  repeat split. intros body [Hin | [Hin | []]]; discriminate.
Qed.

Lemma handleTemplateSubmit_empty_field_rejected_witness :
  fst (Creator.handleTemplateSubmit Creator.initialDashboardState)
  = Creator.initialDashboardState
  /\ snd (Creator.handleTemplateSubmit Samples.title_only) =
     [Creator.PreventDefault;
      Creator.ShowErrorToast "Please fill in all required fields"].
Proof.
  split.
  - apply (handleTemplateSubmit_empty_field_rejected
             Creator.initialDashboardState).
    left. reflexivity.
  - apply (handleTemplateSubmit_empty_field_rejected Samples.title_only).
    right. reflexivity.
Defined.

Section ProfileSubmit.

Import Creator.

Variable formData : ProfileFormData.

Lemma handleSubmit_rejected :
  username formData = "" \/ display_name formData = "" ->
  handleSubmit formData =
  (formData,
   [PreventDefault; ShowErrorToast "Please fill in all required fields"]).
Proof.
  intros H. apply required_guard in H. unfold handleSubmit.
  rewrite H. reflexivity.
Qed.

Lemma handleSubmit_accepted :
  username formData <> "" -> display_name formData <> "" ->
  handleSubmit formData =
  (formData, [PreventDefault; CreateCreatorProfile formData]).
Proof.
  intros Hu Hd. unfold handleSubmit.
  rewrite (proj2 (required_guard_pass _ _) (conj Hu Hd)). reflexivity.
Qed.

End ProfileSubmit.

(** C7: a profile submission whose username or display name is empty shows
    the error toast and sends no createCreatorProfile request; a submission
    with both filled in sends exactly one such request, whose body carries
    the entered username, display name and bio. *)
Theorem handleSubmit_validates_required_fields :
  forall formData : Creator.ProfileFormData,
    (Creator.username formData = "" \/ Creator.display_name formData = "" ->
       In (Creator.ShowErrorToast "Please fill in all required fields")
          (snd (Creator.handleSubmit formData))
       /\ forall body,
            ~ In (Creator.CreateCreatorProfile body)
                 (snd (Creator.handleSubmit formData)))
    /\ (Creator.username formData <> "" ->
        Creator.display_name formData <> "" ->
        snd (Creator.handleSubmit formData) =
          [Creator.PreventDefault; Creator.CreateCreatorProfile formData]
        /\ forall body,
             In (Creator.CreateCreatorProfile body)
                (snd (Creator.handleSubmit formData)) ->
             Creator.username body = Creator.username formData
             /\ Creator.display_name body = Creator.display_name formData
             /\ Creator.bio body = Creator.bio formData).
Proof.
  intros formData. split.
  - intros H. rewrite (handleSubmit_rejected formData H). cbn [snd]. split.
    + right. left. reflexivity.
    + intros body [Hin | [Hin | []]]; discriminate.
  - intros Hu Hd. rewrite (handleSubmit_accepted formData Hu Hd). cbn [snd].
    split; [ reflexivity | ].
    intros body [Hin | [Hin | []]]; [ discriminate | ].
    injection Hin as <-. repeat split.
Qed.

Lemma handleSubmit_validates_required_fields_witness :
  (forall body,
     ~ In (Creator.CreateCreatorProfile body)
          (snd (Creator.handleSubmit Samples.profile_form_no_name)))
  /\ snd (Creator.handleSubmit Samples.profile_form) =
       [Creator.PreventDefault; Creator.CreateCreatorProfile Samples.profile_form].
Proof.
  split.
  - apply (handleSubmit_validates_required_fields Samples.profile_form_no_name).
    right. reflexivity.
  - apply (handleSubmit_validates_required_fields Samples.profile_form);
      discriminate.
Defined.

(** ** creator.tsx: after a successful creation *)

(** C9: the success callback of the create-template mutation closes the
    form, puts the form state back to the initial value (empty title,
    description and notes, both mappings the empty object) and invalidates
    the query key under which the dashboard's own-templates query is cached;
    with a loaded profile the dashboard is what is rendered next. *)
Theorem createTemplate_onSuccess_resets_form :
  forall st : Creator.DashboardState,
    let st' := fst (Creator.step st Creator.CreateTemplateSucceeded) in
    let out := snd (Creator.step st Creator.CreateTemplateSucceeded) in
    Creator.showTemplateForm st' = false
    /\ Creator.templateFormData st' = Creator.emptyTemplateFormData
    /\ st' = Creator.initialDashboardState
    /\ Creator.title (Creator.templateFormData st') = ""
    /\ Creator.description (Creator.templateFormData st') = ""
    /\ Creator.creator_notes (Creator.templateFormData st') = ""
    /\ Creator.core_experience (Creator.templateFormData st') = JsObject []
    /\ Creator.flexible_logistics (Creator.templateFormData st') = JsObject []
    /\ In (Creator.InvalidateQueries Creator.templatesQueryKey) out
    /\ forall creator,
         Creator.CreatorDashboard (observe (Answered creator)) st'
         = Creator.DashboardView creator.
Proof.
  intros st. cbn. repeat split. right. left. reflexivity.
Qed.

(** ** creator.tsx: the dependent templates query *)

Lemma defined_true {A : Type} (o : option A) :
  defined o = true <-> exists a, o = Some a.
Proof.
  destruct o as [a | ]; simpl; split; eauto; try discriminate.
  intros [a H]. discriminate.
Qed.

(** C10: the own-templates query is enabled exactly when the profile query
    holds a profile; while the profile query has no data no getMyTemplates
    request is sent, which covers the profile query in flight and the
    profile query failed, a 404 for a missing profile included. *)
Theorem templates_query_waits_for_profile :
  forall profile : QueryResult Creator.CreatorPublic,
    (Creator.templatesQueryEnabled profile = true <->
       exists creator, data profile = Some creator)
    /\ (data profile = None ->
        Creator.templatesQueryEnabled profile = false
        /\ Creator.templatesQueryRequests profile = [])
    /\ (forall skip limit,
          In (Creator.GetMyTemplates skip limit)
             (Creator.templatesQueryRequests profile) ->
          exists creator, data profile = Some creator)
    /\ Creator.templatesQueryRequests (observe InFlight) = []
    /\ (forall e, Creator.templatesQueryRequests (observe (Failed e)) = []).
Proof.
  intros profile. unfold Creator.templatesQueryRequests,
    Creator.templatesQueryEnabled.
  split; [ apply defined_true | ].
  split; [ intros ->; split; reflexivity | ].
  split; [ | split; reflexivity ].
  intros skip limit. destruct (data profile) as [c | ]; simpl.
  - eauto.
  - intros [].
Qed.

Lemma templates_query_waits_for_profile_witness :
  Creator.templatesQueryRequests (observe (Failed Samples.not_found)) = []
  /\ Creator.templatesQueryEnabled (observe (Answered Samples.wanda)) = true.
Proof.
  split.
  - destruct (templates_query_waits_for_profile
                (observe (Failed Samples.not_found))) as (_ & Hnone & _).
    apply Hnone. reflexivity.
  - destruct (templates_query_waits_for_profile
                (observe (Answered Samples.wanda))) as (Hiff & _).
    apply Hiff. exists Samples.wanda. reflexivity.
Defined.

(** ** templates.tsx *)

(** C6: the discover request carries a search parameter exactly when the
    search box is non-empty, and then it is the entered string; with an empty
    search box the parameter is [undefined] and the request is the plain
    first page (skip 0, limit 20). *)
Theorem discoverRequest_search_only_when_nonempty :
  forall searchState : string,
    (searchState = "" ->
       Templates.discoverRequest searchState =
       {| Templates.skip := 0; Templates.limit := 20;
          Templates.search := None |})
    /\ (searchState <> "" ->
        Templates.search (Templates.discoverRequest searchState)
        = Some searchState)
    /\ (is_Some (Templates.search (Templates.discoverRequest searchState))
        <-> searchState <> "").
Proof.
  intros searchState. unfold Templates.discoverRequest, str_or_undefined.
  destruct searchState as [ | c rest]; simpl.
  - split; [ reflexivity | ]. split; [ congruence | ].
    split; [ intros [x Hx]; discriminate | congruence ].
  - split; [ discriminate | ]. split; [ reflexivity | ].
    split; [ discriminate | eauto ].
Qed.

Lemma discoverRequest_search_only_when_nonempty_witness :
  Templates.discoverRequest "" =
    {| Templates.skip := 0; Templates.limit := 20; Templates.search := None |}
  /\ Templates.search (Templates.discoverRequest "Hawaii") = Some "Hawaii".
Proof.
  split.
  - apply (discoverRequest_search_only_when_nonempty ""). reflexivity.
  - apply (discoverRequest_search_only_when_nonempty "Hawaii"). discriminate.
Defined.

Lemma TemplateDiscovery_error_view (q : QueryResult Templates.TripTemplatesPublic)
  (searchState text : string) :
  Templates.TemplateDiscovery q searchState = Templates.ErrorView text ->
  isLoading q = false /\ exists e, error q = Some e.
Proof.
  unfold Templates.TemplateDiscovery.
  destruct (isLoading q); [ discriminate | ].
  destruct (error q) as [e | ]; simpl.
  - eauto.
  - destruct (Templates.no_items (Query.data q)); discriminate.
Qed.

(** C8: once a discover response with zero items has arrived, the page
    shows the "No templates found" state; a failed request shows the
    "Failed to load templates" state instead, and that error state is only
    ever rendered when the query holds an error. *)
Theorem empty_response_renders_empty_state :
  forall (page : Templates.TripTemplatesPublic) (searchState : string),
    Templates.data page = [] ->
    (exists hint,
       Templates.TemplateDiscovery (observe (Answered page)) searchState
       = Templates.EmptyView "No templates found" hint)
    /\ (forall text,
          Templates.TemplateDiscovery (observe (Answered page)) searchState
          <> Templates.ErrorView text)
    /\ (forall e,
          Templates.TemplateDiscovery (observe (Failed e)) searchState
          = Templates.ErrorView "Failed to load templates")
    /\ (forall q text,
          Templates.TemplateDiscovery q searchState = Templates.ErrorView text ->
          exists e, error q = Some e).
Proof.
  intros page searchState Hempty.
  unfold Templates.TemplateDiscovery at 1 2. simpl. rewrite Hempty. simpl.
  split; [ eexists; reflexivity | ].
  split; [ discriminate | ].
  split; [ reflexivity | ].
  intros q text H. apply TemplateDiscovery_error_view in H. tauto.
Qed.

Lemma empty_response_renders_empty_state_witness :
  Templates.TemplateDiscovery (observe (Answered Samples.no_templates)) "Hawaii"
  = Templates.EmptyView "No templates found" "Try adjusting your search terms".
Proof.
  destruct (empty_response_renders_empty_state Samples.no_templates "Hawaii")
    as ((hint & Hview) & _); [ reflexivity | ].
  rewrite Hview. f_equal.
  injection Hview as <-. reflexivity.
Defined.

(** ** creator.tsx: which view the dashboard returns *)

Section DashboardViews.

Import Creator.

Variable st : DashboardState.

Lemma CreatorDashboard_loading (profile : QueryResult CreatorPublic) :
  isLoading profile = true -> CreatorDashboard profile st = LoadingView.
Proof. unfold CreatorDashboard. intros ->. reflexivity. Qed.

Lemma CreatorDashboard_setup_iff (profile : QueryResult CreatorPublic) :
  isLoading profile = false ->
  (CreatorDashboard profile st = CreatorSetupView <->
   (exists e, error profile = Some e) \/ data profile = None).
Proof.
  unfold CreatorDashboard. intros ->.
  destruct (error profile) as [e | ]; simpl.
  - split; eauto.
  - destruct (data profile) as [c | ]; simpl.
    + destruct (showTemplateForm st); split; try discriminate;
        intros [[e He] | Hd]; discriminate.
    + split; eauto.
Qed.

Lemma CreatorDashboard_failed (e : Main.JsError) :
  CreatorDashboard (observe (Failed e)) st = CreatorSetupView.
Proof. reflexivity. Qed.

End DashboardViews.

(** C5, as stated, fails: a profile lookup that fails with a server error
    renders the very same setup flow as a missing profile does. *)
Lemma setup_view_on_server_error :
  Creator.CreatorDashboard (observe (Failed Samples.server_error))
                           Creator.initialDashboardState
  = Creator.CreatorSetupView
  /\ ~ Creator.profile_not_found (observe (Failed Samples.server_error)).
Proof.
  split; [ reflexivity | ].
  intros (_ & _ & body & message & H). discriminate.
Qed.

(** C5, amended: once the profile lookup has settled, a missing profile
    (404) is rendered as the creator setup flow, never as an error page; and
    the setup flow is rendered exactly when the lookup holds an error of any
    kind or holds no profile, so every failed lookup is shown as the setup
    flow, whatever its status. *)
Theorem setup_view_on_any_failed_lookup :
  forall (profile : QueryResult Creator.CreatorPublic)
         (st : Creator.DashboardState),
    (Creator.profile_not_found profile ->
       Creator.CreatorDashboard profile st = Creator.CreatorSetupView)
    /\ (isLoading profile = false ->
        (Creator.CreatorDashboard profile st = Creator.CreatorSetupView <->
         (exists e, error profile = Some e) \/ data profile = None))
    /\ (forall e,
          Creator.CreatorDashboard (observe (Failed e)) st
          = Creator.CreatorSetupView).
Proof.
  intros profile st. split; [ | split ].
  - intros (Hload & Hdata & _).
    apply CreatorDashboard_setup_iff; [ assumption | right; assumption ].
  - apply CreatorDashboard_setup_iff.
  - apply CreatorDashboard_failed.
Qed.

Lemma setup_view_on_any_failed_lookup_witness :
  Creator.CreatorDashboard (observe (Failed Samples.not_found))
                           Creator.initialDashboardState
  = Creator.CreatorSetupView
  /\ (Creator.CreatorDashboard (observe (Answered Samples.wanda))
                               Creator.initialDashboardState
      = Creator.CreatorSetupView <->
      (exists e, error (observe (Answered Samples.wanda)) = Some e)
      \/ data (observe (Answered Samples.wanda)) = None).
Proof.
  split.
  - destruct (setup_view_on_any_failed_lookup
                (observe (Failed Samples.not_found))
                Creator.initialDashboardState) as (Hnf & _).
    apply Hnf. repeat split. eexists. eexists. reflexivity.
  - destruct (setup_view_on_any_failed_lookup
                (observe (Answered Samples.wanda))
                Creator.initialDashboardState) as (_ & Hiff & _).
    apply Hiff. reflexivity.
Defined.

(** ** creator.tsx: the defaults of the template request *)

Section TemplateDefaults.

Import Creator.

(** What line 89 and line 90 do when the form holds a falsy value. *)
Lemma templateData_falsy (fd : TemplateFormData) :
  truthy (core_experience fd) = false ->
  truthy (flexible_logistics fd) = false ->
  core_experience (templateData fd) =
    JsObject [("destination", JsString (title fd))]
  /\ flexible_logistics (templateData fd) =
    JsObject [("duration", JsString "7 days")].
Proof.
  intros Hc Hf. unfold templateData. simpl.
  rewrite (js_or_falsy _ _ Hc), (js_or_falsy _ _ Hf). split; reflexivity.
Qed.

(** And when it holds a truthy one. *)
Lemma templateData_truthy (fd : TemplateFormData) :
  truthy (core_experience fd) = true ->
  truthy (flexible_logistics fd) = true ->
  templateData fd = fd.
Proof.
  intros Hc Hf. unfold templateData.
  rewrite (js_or_truthy _ _ Hc), (js_or_truthy _ _ Hf).
  destruct fd; reflexivity.
Qed.

(** No event touches the two mappings, except the reset to [{}]. *)
Lemma step_keeps_mappings_empty (st : DashboardState) (ev : Event) :
  mappings_empty st -> mappings_empty (fst (step st ev)).
Proof.
  unfold mappings_empty. intros [Hc Hf].
  destruct ev; simpl; try (split; assumption).
  - unfold handleTemplateSubmit. cbv zeta.
    destruct (negb _ || negb _); simpl; split; assumption.
  - split; reflexivity.
Qed.

Lemma run_keeps_mappings_empty (evs : list Event) :
  forall st, mappings_empty st -> mappings_empty (fst (run st evs)).
Proof.
  induction evs as [ | ev rest IH]; intros st Hst; simpl.
  - assumption.
  - pose proof (step_keeps_mappings_empty st ev Hst) as Hstep.
    destruct (step st ev) as [st1 out1]. simpl in Hstep.
    specialize (IH st1 Hstep).
    destruct (run st1 rest) as [st2 out2]. simpl in *. assumption.
Qed.

Lemma reachable_mappings_empty (evs : list Event) :
  mappings_empty (fst (run initialDashboardState evs)).
Proof. apply run_keeps_mappings_empty. split; reflexivity. Qed.

End TemplateDefaults.

(** C1, on the code: after any sequence of dashboard events the form holds
    [{}] for both mappings, [{}] is truthy, and so an accepted submission
    sends the form data unchanged: its [core_experience] is [{}], not a
    mapping from [destination] to the title, and its [flexible_logistics] is
    [{}], not a mapping from [duration] to "7 days". *)
Theorem submit_sends_empty_mappings :
  forall evs : list Creator.Event,
    let st := fst (Creator.run Creator.initialDashboardState evs) in
    let fd := Creator.templateFormData st in
    Creator.title fd <> "" -> Creator.description fd <> "" ->
    snd (Creator.handleTemplateSubmit st) =
      [Creator.PreventDefault; Creator.CreateTripTemplate fd]
    /\ Creator.core_experience fd = JsObject []
    /\ Creator.flexible_logistics fd = JsObject []
    /\ Creator.core_experience fd <> Creator.fabricated_core_experience fd
    /\ Creator.flexible_logistics fd <> Creator.fabricated_flexible_logistics.
Proof.
  intros evs st fd Ht Hd.
  destruct (reachable_mappings_empty evs) as [Hc Hf].
  fold st in Hc, Hf. fold fd in Hc, Hf.
  rewrite (handleTemplateSubmit_accepted st Ht Hd). fold fd. cbn [snd].
  rewrite templateData_truthy by (rewrite ?Hc, ?Hf; reflexivity).
  rewrite Hc, Hf. repeat split; discriminate.
Qed.

Lemma submit_sends_empty_mappings_witness :
  snd (Creator.handleTemplateSubmit
         (fst (Creator.run Creator.initialDashboardState Samples.filled_in)))
  = [Creator.PreventDefault;
     Creator.CreateTripTemplate
       {| Creator.title := "7-Day Tokyo Adventure";
          Creator.description := "A week of food and temples";
          Creator.creator_notes := "";
          Creator.core_experience := JsObject [];
          Creator.flexible_logistics := JsObject [] |}].
Proof.
  destruct (submit_sends_empty_mappings Samples.filled_in) as (Hout & _);
    [ discriminate | discriminate | ].
  exact Hout.
Defined.

(** ** The Discovery Service *)

Section DiscoveryFacts.

Import Discovery.

Lemma insert_sorted_elem (x a : TripTemplate * Creator)
  (l : list (TripTemplate * Creator)) :
  In x (insert_sorted a l) -> x = a \/ In x l.
Proof.
  induction l as [ | y rest IH]; simpl.
  - intros [<- | []]. left. reflexivity.
  - destruct (newer_first a y); simpl.
    + intros [<- | H]; [ left; reflexivity | right; assumption ].
    + intros [<- | H]; [ right; left; reflexivity | ].
      destruct (IH H) as [-> | Hin]; [ left | right; right ]; trivial.
Qed.

Lemma sort_newest_elem (x : TripTemplate * Creator)
  (l : list (TripTemplate * Creator)) :
  In x (sort_newest l) -> In x l.
Proof.
  unfold sort_newest. induction l as [ | a rest IH]; simpl.
  - trivial.
  - intros H. apply insert_sorted_elem in H as [-> | H]; auto.
Qed.

Lemma paginate_elem {A : Type} (skip limit : Z) (l : list A) (x : A) :
  In x (paginate skip limit l) -> In x l.
Proof.
  unfold paginate. rewrite <- !list_elem_of_In. intros H.
  eapply elem_of_sublist; [ | apply sublist_drop ].
  eapply elem_of_sublist; [ exact H | apply sublist_take ].
Qed.

Lemma discoverable_Some (db : Store) (search : option string)
  (t t' : TripTemplate) (c : Creator) :
  discoverable db search t = Some (t', c) ->
  t' = t
  /\ owner db t = Some c
  /\ status t = published
  /\ creator_status c <> suspended
  /\ matches search t = true.
Proof.
  unfold discoverable. destruct (owner db t) as [c0 | ]; [ | discriminate ].
  destruct (is_published (status t)) eqn:Hp; simpl; [ | discriminate ].
  destruct (is_suspended (creator_status c0)) eqn:Hs; simpl; [ discriminate | ].
  destruct (matches search t) eqn:Hm; [ | discriminate ].
  intros [= <- <-]. repeat split.
  - destruct (status t); [ discriminate | reflexivity ].
  - intros Heq. rewrite Heq in Hs. discriminate.
Qed.

Lemma owner_Some (db : Store) (t : TripTemplate) (c : Creator) :
  owner db t = Some c -> In c (creators db) /\ creator_id_of c = creator_id t.
Proof.
  unfold owner. intros H. apply find_some in H as [Hin Heq].
  split; [ assumption | ]. apply Z.eqb_eq. assumption.
Qed.

Lemma discover_item (db : Store) (search : option string) (skip limit : Z)
  (it : Discovered) :
  In it (items (discover db search skip limit)) ->
  exists c,
    In (template it) (templates db)
    /\ discoverable db search (template it) = Some (template it, c)
    /\ by_username it = username c
    /\ by_display_name it = display_name c.
Proof.
  unfold discover. cbn [items]. intros H.
  apply in_map_iff in H as ([t c] & <- & H).
  apply paginate_elem, sort_newest_elem in H.
  apply list_elem_of_In, list_elem_of_omap in H as (t0 & Hin & Hd).
  pose proof (discoverable_Some _ _ _ _ _ Hd) as (-> & _).
  exists c. cbn. repeat split; [ apply list_elem_of_In | ]; assumption.
Qed.

End DiscoveryFacts.

(** The page itself never looks at [template.status]: every card it
    draws for a returned item carries the "Published" badge. *)
Lemma card_badge_published (t : Templates.TripTemplatePublic) :
  Templates.card_badge (Templates.card t) = "Published".
Proof. reflexivity. Qed.

(** C4: every item that [discover] returns, for any store, search term,
    skip and limit, is a stored template with status published whose
    creator exists and is not suspended; hence no draft is ever among the
    items, whatever its title or description. *)
Theorem discover_only_published_of_unsuspended :
  forall (db : Discovery.Store) (search : option string) (skip limit : Z),
    (forall it,
       In it (Discovery.items (Discovery.discover db search skip limit)) ->
       Discovery.status (Discovery.template it) = Discovery.published
       /\ exists c,
            In c (Discovery.creators db)
            /\ Discovery.creator_id_of c
               = Discovery.creator_id (Discovery.template it)
            /\ Discovery.creator_status c <> Discovery.suspended)
    /\ (forall t,
          Discovery.status t = Discovery.draft ->
          ~ In t (map Discovery.template
                      (Discovery.items
                         (Discovery.discover db search skip limit)))).
Proof.
  intros db search skip limit.
  assert (Hitems : forall it,
    In it (Discovery.items (Discovery.discover db search skip limit)) ->
    Discovery.status (Discovery.template it) = Discovery.published
    /\ exists c,
         In c (Discovery.creators db)
         /\ Discovery.creator_id_of c
            = Discovery.creator_id (Discovery.template it)
         /\ Discovery.creator_status c <> Discovery.suspended).
  { intros it H. apply discover_item in H as (c & _ & Hd & _).
    apply discoverable_Some in Hd as (_ & Hown & Hpub & Hsus & _).
    apply owner_Some in Hown as [Hin Hid].
    split; [ assumption | ]. exists c. repeat split; assumption. }
  split; [ exact Hitems | ].
  intros t Hdraft Hin. apply in_map_iff in Hin as (it & <- & Hin).
  apply Hitems in Hin as [Hpub _]. congruence.
Qed.

Lemma discover_only_published_of_unsuspended_witness :
  ~ In Samples.tokyo_draft
       (map Discovery.template
            (Discovery.items
               (Discovery.discover Samples.store (Some "tokyo") 0 20)))
  /\ Discovery.status Samples.tokyo_published = Discovery.published.
Proof.
  destruct (discover_only_published_of_unsuspended
              Samples.store (Some "tokyo") 0 20) as [Hitems Hdraft].
  split.
  - apply Hdraft. reflexivity.
  - apply (Hitems {| Discovery.template := Samples.tokyo_published;
                     Discovery.by_username := "wanderer";
                     Discovery.by_display_name := "Wanda" |}).
    vm_compute. left. reflexivity.
Defined.

(** The store of the samples holds four templates about Tokyo or Paris;
    a search for "TOKYO" finds the published one of the active creator only:
    not the draft, not the one of the suspended creator. *)
Example discover_tokyo :
  map (fun it => Discovery.title (Discovery.template it))
      (Discovery.items (Discovery.discover Samples.store (Some "TOKYO") 0 20))
  = ["7-Day Tokyo Adventure"].
Proof. vm_compute. reflexivity. Qed.

Example discover_all_newest_first :
  map (fun it => Discovery.title (Discovery.template it))
      (Discovery.items (Discovery.discover Samples.store None 0 20))
  = ["Paris Getaway"; "7-Day Tokyo Adventure"]
  /\ Discovery.total_count (Discovery.discover Samples.store (Some "") 1 20)
     = 2%nat.
Proof. vm_compute. split; reflexivity. Qed.

(* ===================================================================== *)
(** * Further properties of the three files *)
(* ===================================================================== *)

(** ** main.tsx: the text of the 403 toast, and sessions of failures *)

Section ErrorSessions.

Import Main MainSession.

Lemma handleApiError_cases (e : JsError) (w : Browser) :
  (has_status 401 e = true
   /\ handleApiError e w =
      {| localStorage := delete "access_token" (localStorage w);
         location_href := "/login";
         toasts := toasts w |})
  \/ (has_status 401 e = false /\ has_status 403 e = true
      /\ localStorage (handleApiError e w) = localStorage w
      /\ location_href (handleApiError e w) = location_href w
      /\ exists t, toasts (handleApiError e w) = (toasts w ++ [t])%list
                   /\ toast_title t = "Access Denied")
  \/ (has_status 401 e = false /\ has_status 403 e = false
      /\ handleApiError e w = w).
Proof.
  destruct e as [status body msg | msg]; simpl.
  - destruct (Z.eqb_spec status 401) as [-> | H401].
    + left. split; reflexivity.
    + right. destruct (Z.eqb_spec status 403) as [-> | H403].
      * left. simpl. repeat split. eexists. split; reflexivity.
      * right. repeat split.
  - right. right. repeat split.
Qed.

Lemma handleAll_app (es1 es2 : list JsError) (w : Browser) :
  handleAll (es1 ++ es2) w = handleAll es2 (handleAll es1 w).
Proof.
  revert w. induction es1 as [ | e rest IH]; intros w; simpl.
  - reflexivity.
  - apply IH.
Qed.

Lemma handleAll_stays_logged_out (es : list JsError) :
  forall w,
    localStorage w !! "access_token" = None -> location_href w = "/login" ->
    localStorage (handleAll es w) !! "access_token" = None
    /\ location_href (handleAll es w) = "/login".
Proof.
  induction es as [ | e rest IH]; intros w Hls Hloc; simpl.
  - split; assumption.
  - destruct (handleApiError_cases e w)
      as [(_ & ->) | [(_ & _ & Hl & Hh & _) | (_ & _ & ->)]].
    + apply IH; simpl; [ apply lookup_delete_eq | reflexivity ].
    + apply IH; [ rewrite Hl | rewrite Hh ]; assumption.
    + apply IH; assumption.
Qed.

End ErrorSessions.

(** X1: the description of the 403 toast is the [detail] of the error body
    when that is truthy and "Access forbidden" otherwise (no body, [null],
    a body without [detail], an empty [detail]); either way it is truthy, so
    the toast is never blank. *)
Theorem forbidden_toast_never_blank :
  forall (body : JsValue) (msg : string) (w : Main.Browser),
    exists t,
      Main.toasts (Main.handleApiError (Main.ApiError 403 body msg) w)
      = (Main.toasts w ++ [t])%list
      /\ truthy (Main.toast_description t) = true
      /\ (truthy (opt_get body "detail") = true ->
          Main.toast_description t = opt_get body "detail")
      /\ (truthy (opt_get body "detail") = false ->
          Main.toast_description t = JsString "Access forbidden").
Proof.
  intros body msg w. rewrite handleApiError_403. cbn [Main.toasts].
  eexists. split; [ reflexivity | ]. cbn [Main.toast_description].
  unfold js_or. destruct (truthy (opt_get body "detail")) eqn:Hd.
  - repeat split; [ assumption | discriminate ].
  - repeat split. discriminate.
Qed.

Lemma forbidden_toast_never_blank_witness :
  exists t,
    Main.toasts (Main.handleApiError (Main.ApiError 403 JsNull "Forbidden")
                                     Samples.signed_in) = [t]
    /\ Main.toast_description t = JsString "Access forbidden".
Proof.
  destruct (forbidden_toast_never_blank JsNull "Forbidden" Samples.signed_in)
    as (t & Ht & _ & _ & Hfallback).
  exists t. split; [ exact Ht | apply Hfallback; reflexivity ].
Defined.

(** X2: over any sequence of failures the toaster only grows, by exactly
    one "Access Denied" toast per 403 error; no other failure shows a
    toast. *)
Theorem handleAll_one_toast_per_403 :
  forall (es : list Main.JsError) (w : Main.Browser),
    exists added,
      Main.toasts (MainSession.handleAll es w) = (Main.toasts w ++ added)%list
      /\ length added = length (List.filter (MainSession.has_status 403) es)
      /\ Forall (fun t => Main.toast_title t = "Access Denied") added.
Proof.
  intros es. induction es as [ | e rest IH]; intros w; simpl.
  - exists []. rewrite app_nil_r. repeat split. constructor.
  - destruct (IH (Main.handleApiError e w)) as (added & Heq & Hlen & Hall).
    destruct (handleApiError_cases e w)
      as [(H401 & Hw) | [(_ & H403 & _ & _ & t & Ht & Htitle) | (_ & H403 & Hw)]].
    + assert (MainSession.has_status 403 e = false) as ->.
      { destruct e as [status body msg | msg]; simpl in *; [ | reflexivity ].
        apply Z.eqb_eq in H401. subst. reflexivity. }
      exists added. rewrite Heq, Hw. repeat split; assumption.
    + rewrite H403. exists (t :: added). rewrite Heq, Ht, <- app_assoc. simpl.
      repeat split; [ f_equal; assumption | constructor; assumption ].
    + rewrite H403. exists added. rewrite Heq, Hw. repeat split; assumption.
Qed.

(** X3: once a 401 has been handled nothing that the handler does later
    brings the credential back or leaves the login page: after any sequence
    of failures that contains a 401, [access_token] is absent, the token sent
    with requests is the empty string and the location is [/login]. *)
Theorem handleAll_logged_out_after_401 :
  forall (es : list Main.JsError) (w : Main.Browser),
    existsb (MainSession.has_status 401) es = true ->
    Main.localStorage (MainSession.handleAll es w) !! "access_token" = None
    /\ Main.token (MainSession.handleAll es w) = ""
    /\ Main.location_href (MainSession.handleAll es w) = "/login".
Proof.
  intros es w H.
  assert (Hgoal :
    Main.localStorage (MainSession.handleAll es w) !! "access_token" = None
    /\ Main.location_href (MainSession.handleAll es w) = "/login").
  { revert w. induction es as [ | e rest IH]; intros w; simpl in *.
    - discriminate.
    - destruct (handleApiError_cases e w)
        as [(_ & ->) | [(H401 & _) | (H401 & _)]].
      + apply handleAll_stays_logged_out; simpl;
          [ apply lookup_delete_eq | reflexivity ].
      + rewrite H401 in H. apply IH. exact H.
      + rewrite H401 in H. apply IH. exact H. }
  destruct Hgoal as [Hls Hloc]. unfold Main.token. rewrite Hls.
  repeat split; assumption.
Qed.

Lemma handleAll_logged_out_after_401_witness :
  Main.token (MainSession.handleAll
                [Samples.forbidden; Samples.unauthorized; Samples.server_error]
                Samples.signed_in) = "".
Proof.
  apply (handleAll_logged_out_after_401
           [Samples.forbidden; Samples.unauthorized; Samples.server_error]
           Samples.signed_in).
  reflexivity.
Defined.

(** X4: the handler never touches a storage entry other than
    [access_token], and as long as no failure is a 401 it leaves the whole
    storage, hence the token, and the location as they were. *)
Theorem handleAll_keeps_credential_without_401 :
  forall (es : list Main.JsError) (w : Main.Browser),
    (forall k, k <> "access_token" ->
       Main.localStorage (MainSession.handleAll es w) !! k
       = Main.localStorage w !! k)
    /\ (existsb (MainSession.has_status 401) es = false ->
        Main.localStorage (MainSession.handleAll es w) = Main.localStorage w
        /\ Main.token (MainSession.handleAll es w) = Main.token w
        /\ Main.location_href (MainSession.handleAll es w)
           = Main.location_href w).
Proof.
  intros es. induction es as [ | e rest IH]; intros w; simpl.
  - repeat split.
  - destruct (IH (Main.handleApiError e w)) as [IHk IHno].
    destruct (handleApiError_cases e w)
      as [(H401 & Hw) | [(H401 & _ & Hl & Hh & _) | (H401 & _ & Hw)]];
      rewrite H401; simpl.
    + split; [ | discriminate ].
      intros k Hk. rewrite (IHk k Hk), Hw. simpl.
      apply lookup_delete_ne. congruence.
    + split.
      * intros k Hk. rewrite (IHk k Hk), Hl. reflexivity.
      * intros Hno. destruct (IHno Hno) as (H1 & H2 & H3).
        unfold Main.token in *. rewrite H1, Hl in *. rewrite H3, Hh.
        repeat split.
    + rewrite Hw in *. split; [ exact IHk | exact IHno ].
Qed.

Lemma handleAll_keeps_credential_without_401_witness :
  Main.token (MainSession.handleAll [Samples.forbidden; Samples.not_found]
                                    Samples.signed_in)
  = Main.token Samples.signed_in.
Proof.
  destruct (handleAll_keeps_credential_without_401
              [Samples.forbidden; Samples.not_found] Samples.signed_in)
    as (_ & Hno).
  apply Hno. reflexivity.
Defined.

(** ** creator.tsx: sessions on the dashboard *)

Section DashboardSessions.

Import Creator DashboardSession.

Lemma run_cons (st : DashboardState) (ev : Event) (rest : list Event) :
  run st (ev :: rest) =
  (fst (run (fst (step st ev)) rest),
   (snd (step st ev) ++ snd (run (fst (step st ev)) rest))%list).
Proof.
  cbn [run]. destruct (step st ev) as [st1 out1]. cbn [fst snd].
  destruct (run st1 rest) as [st2 out2]. reflexivity.
Qed.

Lemma templateData_required_fields (fd : TemplateFormData) :
  title (templateData fd) = title fd
  /\ description (templateData fd) = description fd
  /\ creator_notes (templateData fd) = creator_notes fd.
Proof. repeat split. Qed.

(** What a single event can send. *)
Lemma step_request (st : DashboardState) (ev : Event) (body : TemplateFormData) :
  In (CreateTripTemplate body) (snd (step st ev)) ->
  ev = SubmitTemplateForm
  /\ body = templateData (templateFormData st)
  /\ title (templateFormData st) <> ""
  /\ description (templateFormData st) <> "".
Proof.
  destruct ev; simpl; try (intros []; fail);
    try (intros [H | []]; discriminate).
  - unfold handleTemplateSubmit. cbv zeta.
    destruct (negb (str_truthy (title (templateFormData st)))
              || negb (str_truthy (description (templateFormData st))))
      eqn:Hguard; simpl.
    + intros [H | [H | []]]; discriminate.
    + apply required_guard_pass in Hguard as [Ht Hd].
      intros [H | [H | []]]; [ discriminate | ].
      injection H as <-. repeat split; assumption.
  - intros [H | [H | []]]; discriminate.
Qed.

Lemma step_request_count (st : DashboardState) (ev : Event) :
  (length (List.filter is_create_request (snd (step st ev)))
   <= if is_submit ev then 1 else 0)%nat.
Proof.
  destruct ev; simpl; try lia.
  unfold handleTemplateSubmit. cbv zeta.
  destruct (negb _ || negb _); simpl; lia.
Qed.

Lemma step_leaves_inputs (st : DashboardState) (ev : Event) :
  leaves_inputs ev = true ->
  templateFormData (fst (step st ev)) = templateFormData st.
Proof.
  destruct ev; simpl; try discriminate; try reflexivity.
  intros _. unfold handleTemplateSubmit. cbv zeta.
  destruct (negb _ || negb _); reflexivity.
Qed.

Lemma run_leaves_inputs (evs : list Event) :
  forall st,
    Forall (fun ev => leaves_inputs ev = true) evs ->
    templateFormData (fst (run st evs)) = templateFormData st.
Proof.
  induction evs as [ | ev rest IH]; intros st Hall.
  - reflexivity.
  - inversion Hall as [ | ? ? Hev Hrest]; subst.
    rewrite run_cons. cbn [fst].
    rewrite (IH _ Hrest). apply step_leaves_inputs. assumption.
Qed.

End DashboardSessions.

(** X5: whatever the dashboard state and whatever the user and the server
    do, every create-template request that goes out has a non-empty title and
    a non-empty description. *)
Theorem run_requests_have_required_fields :
  forall (st : Creator.DashboardState) (evs : list Creator.Event)
         (body : Creator.TemplateFormData),
    In (Creator.CreateTripTemplate body) (snd (Creator.run st evs)) ->
    Creator.title body <> "" /\ Creator.description body <> "".
Proof.
  intros st evs. revert st.
  induction evs as [ | ev rest IH]; intros st body Hin.
  - destruct Hin.
  - rewrite run_cons in Hin. cbn [snd] in Hin.
    apply in_app_or in Hin as [Hin | Hin].
    + apply step_request in Hin as (_ & -> & Ht & Hd).
      split; assumption.
    + apply (IH _ _ Hin).
Qed.

Lemma run_requests_have_required_fields_witness :
  Creator.title (Creator.templateFormData
                   (fst (Creator.run Creator.initialDashboardState
                                     Samples.filled_in))) <> "".
Proof.
  apply (run_requests_have_required_fields
           Creator.initialDashboardState
           (Samples.filled_in ++ [Creator.SubmitTemplateForm])
           (Creator.templateFormData
              (fst (Creator.run Creator.initialDashboardState
                                Samples.filled_in)))).
  vm_compute. right. left. reflexivity.
Defined.

(** X6: requests to create a template come from form submissions only, at
    most one for each: in any session their number is at most the number of
    submit events, so a session without a submit sends none. *)
Theorem run_requests_bounded_by_submits :
  forall (st : Creator.DashboardState) (evs : list Creator.Event),
    (length (List.filter DashboardSession.is_create_request
                         (snd (Creator.run st evs)))
     <= length (List.filter DashboardSession.is_submit evs))%nat.
Proof.
  intros st evs. revert st.
  induction evs as [ | ev rest IH]; intros st.
  - simpl. lia.
  - rewrite run_cons. cbn [snd].
    rewrite List.filter_app, length_app.
    pose proof (step_request_count st ev) as Hstep.
    specialize (IH (fst (Creator.step st ev))).
    simpl. destruct (DashboardSession.is_submit ev); simpl; lia.
Qed.

(** X7: what has been typed into the template form is lost only by typing
    over it or by a successful creation: opening and cancelling the form, a
    rejected or an accepted submission and a failed creation all leave the
    form data as it is. *)
Theorem run_keeps_typed_input :
  forall (st : Creator.DashboardState) (evs : list Creator.Event),
    Forall (fun ev => DashboardSession.leaves_inputs ev = true) evs ->
    Creator.templateFormData (fst (Creator.run st evs))
    = Creator.templateFormData st.
Proof. intros st evs H. apply run_leaves_inputs. exact H. Qed.

Lemma run_keeps_typed_input_witness :
  Creator.templateFormData
    (fst (Creator.run
            (fst (Creator.run Creator.initialDashboardState Samples.filled_in))
            MoreSamples.failed_attempt))
  = Creator.templateFormData
      (fst (Creator.run Creator.initialDashboardState Samples.filled_in)).
Proof.
  apply (run_keeps_typed_input
           (fst (Creator.run Creator.initialDashboardState Samples.filled_in))
           MoreSamples.failed_attempt).
  repeat constructor.
Defined.

(** X8: after a successful creation every submission is rejected with the
    required-fields message, and sends nothing, until the user types
    again: the reset form cannot be sent a second time. *)
Theorem resubmit_after_success_rejected :
  forall (st : Creator.DashboardState) (evs : list Creator.Event),
    Forall (fun ev => DashboardSession.leaves_inputs ev = true) evs ->
    let st' :=
      fst (Creator.run (fst (Creator.step st Creator.CreateTemplateSucceeded))
                       evs) in
    Creator.step st' Creator.SubmitTemplateForm =
    (st', [Creator.PreventDefault;
           Creator.ShowErrorToast "Please fill in all required fields"]).
Proof.
  intros st evs Hall st'. cbn [Creator.step].
  apply handleTemplateSubmit_rejected. left.
  subst st'. rewrite (run_leaves_inputs evs _ Hall). reflexivity.
Qed.

Lemma resubmit_after_success_rejected_witness :
  snd (Creator.run Samples.title_only
         [Creator.CreateTemplateSucceeded; Creator.ClickCreateTemplate;
          Creator.SubmitTemplateForm])
  = [Creator.ShowSuccessToast "Template created successfully";
     Creator.InvalidateQueries ["creator"; "templates"];
     Creator.PreventDefault;
     Creator.ShowErrorToast "Please fill in all required fields"].
Proof.
  pose proof (resubmit_after_success_rejected
                Samples.title_only [Creator.ClickCreateTemplate]) as H.
  rewrite !run_cons. cbn [snd fst Creator.run].
  rewrite run_cons in H. cbn [fst Creator.run] in H.
  rewrite H; [ reflexivity | repeat constructor ].
Defined.




(** X10: the dashboard shows the loading text exactly while the profile
    query is loading; it shows the template form only when the query has
    settled without error and holds a profile and the form has been opened,
    and then with the current form data; it shows the dashboard proper only
    for a settled query without error, for the profile it holds, with the
    form closed. *)
Theorem CreatorDashboard_view_cases :
  forall (profile : QueryResult Creator.CreatorPublic)
         (st : Creator.DashboardState),
    (Creator.CreatorDashboard profile st = Creator.LoadingView
     <-> isLoading profile = true)
    /\ (forall fd,
          Creator.CreatorDashboard profile st
          = Creator.TemplateCreationFormView fd ->
          isLoading profile = false /\ error profile = None
          /\ (exists creator, data profile = Some creator)
          /\ Creator.showTemplateForm st = true
          /\ fd = Creator.templateFormData st)
    /\ (forall creator,
          Creator.CreatorDashboard profile st = Creator.DashboardView creator ->
          isLoading profile = false /\ error profile = None
          /\ data profile = Some creator
          /\ Creator.showTemplateForm st = false).
Proof.
  intros profile st. unfold Creator.CreatorDashboard.
  destruct (isLoading profile); [ repeat split; discriminate | ].
  destruct (error profile) as [e | ]; simpl;
    [ repeat split; discriminate | ].
  destruct (data profile) as [c | ]; simpl;
    [ | repeat split; discriminate ].
  destruct (Creator.showTemplateForm st).
  - split; [ split; discriminate | ]. split.
    + intros fd [= <-]. repeat split. eauto.
    + discriminate.
  - split; [ split; discriminate | ]. split.
    + discriminate.
    + intros creator [= <-]. repeat split.
Qed.

Lemma CreatorDashboard_view_cases_witness :
  Creator.showTemplateForm Samples.title_only = true
  /\ Creator.CreatorDashboard (observe InFlight) Samples.title_only
     = Creator.LoadingView.
Proof.
  destruct (CreatorDashboard_view_cases
              (observe (Answered Samples.wanda)) Samples.title_only)
    as (_ & Hform & _).
  destruct (CreatorDashboard_view_cases
              (observe (InFlight (T := Creator.CreatorPublic)))
              Samples.title_only)
    as (Hload & _).
  split.
  - apply (Hform (Creator.templateFormData Samples.title_only)). reflexivity.
  - apply Hload. reflexivity.
Defined.

(** X11: what the user types is what is sent: from any state the dashboard
    can reach, typing a non-empty title, a non-empty description and notes
    and then submitting sends one request whose body holds exactly these
    three strings and the two empty mappings, and leaves the form state
    holding them. *)
Theorem typed_template_is_sent :
  forall (evs : list Creator.Event) (t d n : string),
    t <> "" -> d <> "" ->
    let st := fst (Creator.run Creator.initialDashboardState evs) in
    let typed := {| Creator.title := t; Creator.description := d;
                    Creator.creator_notes := n;
                    Creator.core_experience := JsObject [];
                    Creator.flexible_logistics := JsObject [] |} in
    Creator.run st [Creator.ChangeTitle t; Creator.ChangeDescription d;
                    Creator.ChangeCreatorNotes n; Creator.SubmitTemplateForm]
    = ({| Creator.showTemplateForm := Creator.showTemplateForm st;
          Creator.templateFormData := typed |},
       [Creator.PreventDefault; Creator.CreateTripTemplate typed]).
Proof.
  intros evs t d n Ht Hd st typed.
  destruct (reachable_mappings_empty evs) as [Hc Hf]. fold st in Hc, Hf.
  rewrite !run_cons. cbn [Creator.run Creator.step fst snd app].
  unfold Creator.setFormData. cbn [Creator.templateFormData
    Creator.showTemplateForm Creator.title Creator.description
    Creator.creator_notes Creator.core_experience Creator.flexible_logistics].
  rewrite Hc, Hf.
  rewrite handleTemplateSubmit_accepted by assumption.
  cbn [fst snd Creator.templateFormData]. rewrite app_nil_r.
  rewrite templateData_truthy by reflexivity. reflexivity.
Qed.

Lemma typed_template_is_sent_witness :
  snd (Creator.run
         (fst (Creator.run Creator.initialDashboardState Samples.filled_in))
         [Creator.ChangeTitle "Lima"; Creator.ChangeDescription "Ceviche";
          Creator.ChangeCreatorNotes ""; Creator.SubmitTemplateForm])
  = [Creator.PreventDefault;
     Creator.CreateTripTemplate
       {| Creator.title := "Lima"; Creator.description := "Ceviche";
          Creator.creator_notes := "";
          Creator.core_experience := JsObject [];
          Creator.flexible_logistics := JsObject [] |}].
Proof.
  rewrite (typed_template_is_sent Samples.filled_in "Lima" "Ceviche" "");
    [ reflexivity | discriminate | discriminate ].
Defined.

(** ** creator.tsx: sessions on the setup page *)

Section SetupSessions.

Import Creator CreatorSetup.

Lemma setup_run_cons (st : SetupState) (ev : SetupEvent) (rest : list SetupEvent) :
  setup_run st (ev :: rest) =
  (fst (setup_run (fst (setup_step st ev)) rest),
   (snd (setup_step st ev) ++ snd (setup_run (fst (setup_step st ev)) rest))%list).
Proof.
  cbn [setup_run]. destruct (setup_step st ev) as [st1 out1]. cbn [fst snd].
  destruct (setup_run st1 rest) as [st2 out2]. reflexivity.
Qed.

Lemma setup_step_request (st : SetupState) (ev : SetupEvent)
  (body : ProfileFormData) :
  In (CreateCreatorProfile body) (snd (setup_step st ev)) ->
  body = formData st /\ username body <> "" /\ display_name body <> "".
Proof.
  destruct ev; simpl; try (intros []; fail);
    try (intros [H | [H | []]]; discriminate);
    try (intros [H | []]; discriminate).
  unfold handleSubmit.
  destruct (negb (str_truthy (username (formData st)))
            || negb (str_truthy (display_name (formData st)))) eqn:Hguard; simpl.
  - intros [H | [H | []]]; discriminate.
  - apply required_guard_pass in Hguard as [Hu Hd].
    intros [H | [H | []]]; [ discriminate | ].
    injection H as <-. repeat split; assumption.
Qed.


End SetupSessions.

(** X12: whatever happens on the setup page, every create-profile request
    that goes out has a non-empty username and a non-empty display name. *)
Theorem setup_requests_have_required_fields :
  forall (st : CreatorSetup.SetupState) (evs : list CreatorSetup.SetupEvent)
         (body : Creator.ProfileFormData),
    In (Creator.CreateCreatorProfile body)
       (snd (CreatorSetup.setup_run st evs)) ->
    Creator.username body <> "" /\ Creator.display_name body <> "".
Proof.
  intros st evs. revert st.
  induction evs as [ | ev rest IH]; intros st body Hin.
  - destruct Hin.
  - rewrite setup_run_cons in Hin. cbn [snd] in Hin.
    apply in_app_or in Hin as [Hin | Hin].
    + apply setup_step_request in Hin as (_ & Hu & Hd). split; assumption.
    + apply (IH _ _ Hin).
Qed.

Lemma setup_requests_have_required_fields_witness :
  Creator.username Samples.profile_form <> "".
Proof.
  apply (setup_requests_have_required_fields
           MoreSamples.typed_profile [CreatorSetup.SubmitProfileForm]
           Samples.profile_form).
  vm_compute. right. left. reflexivity.
Defined.



(** X14: on the setup page, typing a non-empty username, a non-empty
    display name and a bio and then submitting sends one create-profile
    request with exactly these three strings, from any state of the page. *)
Theorem typed_profile_is_sent :
  forall (st : CreatorSetup.SetupState) (u d b : string),
    u <> "" -> d <> "" ->
    let typed := {| Creator.username := u; Creator.display_name := d;
                    Creator.bio := b |} in
    CreatorSetup.setup_run st
      [CreatorSetup.ChangeUsername u; CreatorSetup.ChangeDisplayName d;
       CreatorSetup.ChangeBio b; CreatorSetup.SubmitProfileForm]
    = ({| CreatorSetup.showForm := CreatorSetup.showForm st;
          CreatorSetup.formData := typed |},
       [Creator.PreventDefault; Creator.CreateCreatorProfile typed]).
Proof.
  intros st u d b Hu Hd typed.
  rewrite !setup_run_cons.
  cbn [CreatorSetup.setup_run CreatorSetup.setup_step fst snd app
       CreatorSetup.formData CreatorSetup.showForm
       Creator.username Creator.display_name Creator.bio].
  fold typed. rewrite (handleSubmit_accepted typed Hu Hd). reflexivity.
Qed.

Lemma typed_profile_is_sent_witness :
  snd (CreatorSetup.setup_run CreatorSetup.initialSetupState
         [CreatorSetup.ChangeUsername "@wanderer";
          CreatorSetup.ChangeDisplayName "Wanda Wanderer";
          CreatorSetup.ChangeBio ""; CreatorSetup.SubmitProfileForm])
  = [Creator.PreventDefault; Creator.CreateCreatorProfile Samples.profile_form].
Proof.
  rewrite (typed_profile_is_sent CreatorSetup.initialSetupState
             "@wanderer" "Wanda Wanderer" "");
    [ reflexivity | discriminate | discriminate ].
Defined.

(** ** creator.tsx: the figures and the list of the dashboard *)

Section DashboardFigures.

Import DashboardStats.

Lemma num_or_zero (n : Z) : num_or n 0 = n.
Proof. unfold num_or. destruct (Z.eqb_spec n 0); congruence. Qed.



Lemma all_published_forallb (l : list TemplateRow) :
  forallb is_published_row l = true
  <-> Forall (fun t => status t = "published") l.
Proof.
  rewrite forallb_forall, List.Forall_forall. unfold is_published_row.
  split; intros H t Hin; apply String.eqb_eq, H, Hin.
Qed.


End DashboardFigures.

(** X15: the "Published" figure counts the rows of the response whose
    status is "published": it lies between 0 and the number of rows, reaches
    the number of rows exactly when every row is published, and is 0 when
    there is no response. *)
Theorem publishedCount_bounds :
  forall page : DashboardStats.MyTemplates,
    DashboardStats.publishedCount None = 0
    /\ 0 <= DashboardStats.publishedCount (Some page)
       <= Z.of_nat (length (DashboardStats.data page))
    /\ (DashboardStats.publishedCount (Some page)
        = Z.of_nat (length (DashboardStats.data page))
        <-> Forall (fun t => DashboardStats.status t = "published")
                   (DashboardStats.data page)).
Proof.
  intros page. unfold DashboardStats.publishedCount. rewrite num_or_zero.
  pose proof (List.filter_length_le DashboardStats.is_published_row
                (DashboardStats.data page)) as Hle.
  split; [ reflexivity | ]. split; [ lia | ].
  rewrite <- all_published_forallb. split.
  - intros H. apply List.filter_length_forallb. lia.
  - intros H. rewrite (List.forallb_filter_id _ _ H). reflexivity.
Qed.

(** X16: the "Recent Templates" list shows the first five rows of the
    response, in the order of the response, and nothing beyond: it has
    min(5, number of rows) entries, and its i-th entry is the card of the
    i-th row for i below 5. *)
Theorem recentRows_first_five :
  forall (page : DashboardStats.MyTemplates) (i : nat),
    length (DashboardStats.recentRows (Some page))
    = Nat.min 5 (length (DashboardStats.data page))
    /\ nth_error (DashboardStats.recentRows (Some page)) i
       = if (i <? 5)%nat
         then option_map DashboardStats.rowCard
                         (nth_error (DashboardStats.data page) i)
         else None.
Proof.
  intros page i. unfold DashboardStats.recentRows.
  rewrite length_map, length_firstn. split; [ reflexivity | ].
  rewrite nth_error_map, nth_error_firstn.
  destruct (i <? 5)%nat; reflexivity.
Qed.

(** X17: below the figures the dashboard shows the loading text exactly
    while the templates query is loading; the "You haven't created any
    templates yet" prompt exactly when the query is not loading and holds a
    response with zero rows; without a response (a failed query) it shows a
    list with no rows, not the prompt. *)
Theorem recentTemplates_cases :
  forall (templatesLoading : bool) (d : option DashboardStats.MyTemplates),
    (DashboardStats.recentTemplates templatesLoading d
     = DashboardStats.RecentLoading <-> templatesLoading = true)
    /\ (DashboardStats.recentTemplates templatesLoading d
        = DashboardStats.RecentEmpty
        <-> templatesLoading = false
            /\ exists page, d = Some page /\ DashboardStats.data page = [])
    /\ (templatesLoading = false -> d = None ->
        DashboardStats.recentTemplates templatesLoading d
        = DashboardStats.RecentList []).
Proof.
  intros templatesLoading d. unfold DashboardStats.recentTemplates.
  destruct templatesLoading.
  - split; [ tauto | ]. split; [ | discriminate ].
    split; [ discriminate | intros [H _]; discriminate ].
  - destruct d as [page | ]; simpl.
    + destruct (DashboardStats.data page) as [ | t rest] eqn:Hd; simpl.
      * split; [ split; discriminate | ]. split; [ | discriminate ].
        split; [ | reflexivity ]. intros _. split; [ reflexivity | ].
        exists page. split; [ reflexivity | assumption ].
      * split; [ split; discriminate | ]. split; [ | discriminate ].
        split; [ discriminate | ].
        intros (_ & page' & [= <-] & Hnil). congruence.
    + split; [ split; discriminate | ]. split; [ | reflexivity ].
      split; [ discriminate | ]. intros (_ & page & Hp & _). discriminate.
Qed.

Lemma recentTemplates_cases_witness :
  DashboardStats.recentTemplates false None = DashboardStats.RecentList []
  /\ DashboardStats.recentTemplates true (Some MoreSamples.my_templates)
     = DashboardStats.RecentLoading.
Proof.
  destruct (recentTemplates_cases false None) as (_ & _ & Hnone).
  destruct (recentTemplates_cases true (Some MoreSamples.my_templates))
    as (Hload & _).
  split; [ apply Hnone; reflexivity | apply Hload; reflexivity ].
Defined.



Example dashboard_figures_sample :
  DashboardStats.totalTemplates (Some MoreSamples.my_templates) = 6
  /\ DashboardStats.publishedCount (Some MoreSamples.my_templates) = 3
  /\ DashboardStats.totalViews (Some MoreSamples.my_templates) = 20
  /\ map DashboardStats.row_title
         (DashboardStats.recentRows (Some MoreSamples.my_templates))
     = ["Tokyo"; "Paris"; "Lima"; "Oslo"; "Rome"].
Proof. vm_compute. repeat split. Qed.

(** ** templates.tsx: badges, hints, grid and footer *)

(** X19: a card shows a badge for at most three keys of the core
    experience and accounts for all the others: there are min(3, number of
    keys) badges; the "+N more" badge is absent exactly when there are at
    most three keys, and when present N is at least 1 and badges plus N is
    the number of keys. *)
Theorem tagBadges_account_for_every_key :
  forall (toUpperCase : string -> string) (keys : list string),
    length (TemplateCard.tagBadges toUpperCase keys)
    = Nat.min 3 (length keys)
    /\ (TemplateCard.moreBadge keys = None <-> (length keys <= 3)%nat)
    /\ (TemplateCard.moreBadge keys = None ->
        length (TemplateCard.tagBadges toUpperCase keys) = length keys)
    /\ (forall n, TemplateCard.moreBadge keys = Some n ->
          (1 <= n)%nat
          /\ (length (TemplateCard.tagBadges toUpperCase keys) + n)%nat
             = length keys).
Proof.
  intros toUpperCase keys.
  unfold TemplateCard.tagBadges, TemplateCard.moreBadge.
  rewrite length_map, length_firstn.
  destruct (Nat.ltb_spec 3 (length keys)) as [Hlt | Hge].
  - split; [ reflexivity | ]. split; [ split; [ discriminate | lia ] | ].
    split; [ discriminate | ]. intros n [= <-]. lia.
  - split; [ reflexivity | ]. split; [ tauto | ].
    split; [ lia | discriminate ].
Qed.

Lemma tagBadges_account_for_every_key_witness :
  (length (TemplateCard.tagBadges (fun s => s) ["destination"; "local_food";
                                                "activities"; "season"; "budget"])
   + 2)%nat = 5%nat.
Proof.
  apply (tagBadges_account_for_every_key (fun s => s)
           ["destination"; "local_food"; "activities"; "season"; "budget"]).
  reflexivity.
Defined.

(** X20: replacing the underscores of a key leaves no underscore, keeps the
    length, changes nothing in a key without underscores, and doing it twice
    is doing it once. *)
Theorem replace_underscores_spec :
  forall s : string,
    String.length (TemplateCard.replace_underscores s) = String.length s
    /\ ~ In "_"%char
           (list_ascii_of_string (TemplateCard.replace_underscores s))
    /\ TemplateCard.replace_underscores (TemplateCard.replace_underscores s)
       = TemplateCard.replace_underscores s
    /\ (~ In "_"%char (list_ascii_of_string s) ->
        TemplateCard.replace_underscores s = s).
Proof.
  induction s as [ | c rest (IHlen & IHno & IHidem & IHid)]; simpl.
  - repeat split. tauto.
  - destruct (Ascii.eqb_spec c "_") as [-> | Hne]; simpl.
    + split; [ congruence | ]. split; [ intros [H | H]; [ discriminate | tauto ] | ].
      split; [ congruence | ]. intros H. exfalso. apply H. left. reflexivity.
    + destruct (Ascii.eqb_spec c "_") as [ | _]; [ contradiction | ].
      split; [ congruence | ].
      split; [ intros [H | H]; [ congruence | tauto ] | ].
      split; [ congruence | ].
      intros H. f_equal. apply IHid. intros Hin. apply H. right. exact Hin.
Qed.

Lemma replace_underscores_spec_witness :
  TemplateCard.replace_underscores "destination" = "destination"
  /\ TemplateCard.replace_underscores "local_food_tour" = "local food tour".
Proof.
  split.
  - apply (replace_underscores_spec "destination").
    vm_compute. intuition discriminate.
  - reflexivity.
Defined.

(** X21: when the discovery page shows its empty state, the query holds a
    response with zero items, the heading is "No templates found", and the
    hint fits the request that was made: "Try adjusting your search terms"
    exactly when the request carried a search parameter, "No templates
    available yet" exactly when it carried none. *)
Theorem empty_hint_matches_request :
  forall (q : QueryResult Templates.TripTemplatesPublic)
         (searchState heading hint : string),
    Templates.TemplateDiscovery q searchState
    = Templates.EmptyView heading hint ->
    heading = "No templates found"
    /\ (exists page, Query.data q = Some page /\ Templates.data page = [])
    /\ (hint = "Try adjusting your search terms"
        <-> Templates.search (Templates.discoverRequest searchState)
            = Some searchState)
    /\ (hint = "No templates available yet"
        <-> Templates.search (Templates.discoverRequest searchState) = None).
Proof.
  intros q searchState heading hint.
  unfold Templates.TemplateDiscovery, Templates.discoverRequest,
    str_or_undefined.
  destruct (isLoading q); [ discriminate | ].
  destruct (defined (error q)); [ discriminate | ].
  destruct (Query.data q) as [page | ]; simpl; [ | discriminate ].
  destruct (Templates.data page) as [ | t rest] eqn:Hd; simpl;
    [ | discriminate ].
  intros [= <- <-]. split; [ reflexivity | ].
  split; [ exists page; split; [ reflexivity | assumption ] | ].
  destruct (str_truthy searchState); simpl; split; split;
    try reflexivity; try discriminate.
Qed.

Lemma empty_hint_matches_request_witness :
  Templates.search (Templates.discoverRequest "") = None.
Proof.
  apply (empty_hint_matches_request
           (observe (Answered Samples.no_templates)) ""
           "No templates found" "No templates available yet").
  - reflexivity.
  - reflexivity.
Defined.

(** X22: when the discovery page shows the grid, the query has settled
    without error; for a response the grid has one card per item, in order,
    at least one of them, each with the "Published" badge, and the footer
    reports that same number and the server's count; without a response
    the grid is empty and there is no footer. *)
Theorem grid_view_cases :
  forall (q : QueryResult Templates.TripTemplatesPublic)
         (searchState : string) (cs : list Templates.Card),
    Templates.TemplateDiscovery q searchState = Templates.GridView cs ->
    isLoading q = false /\ error q = None
    /\ (forall page, Query.data q = Some page ->
          cs = map Templates.card (Templates.data page)
          /\ cs <> []
          /\ Forall (fun c => Templates.card_badge c = "Published") cs
          /\ TemplateCard.statsFooter (Query.data q)
             = Some (length cs, Templates.count page))
    /\ (Query.data q = None ->
        cs = [] /\ TemplateCard.statsFooter (Query.data q) = None).
Proof.
  intros q searchState cs. unfold Templates.TemplateDiscovery.
  destruct (isLoading q); [ discriminate | ].
  destruct (error q) as [e | ]; simpl; [ discriminate | ].
  destruct (Query.data q) as [page | ]; simpl.
  - destruct (Templates.data page) as [ | t rest] eqn:Hd; simpl;
      [ discriminate | ].
    intros [= <-]. split; [ reflexivity | ]. split; [ reflexivity | ].
    split; [ | discriminate ].
    intros page' [= <-]. rewrite Hd. simpl.
    split; [ reflexivity | ]. split; [ discriminate | ].
    split; [ | rewrite length_map; reflexivity ].
    constructor; [ reflexivity | ].
    apply List.Forall_forall. intros c Hin.
    apply in_map_iff in Hin as (t' & <- & _). reflexivity.
  - intros [= <-]. repeat split; discriminate.
Qed.

Lemma grid_view_cases_witness :
  TemplateCard.statsFooter (Some MoreSamples.one_template) = Some (1%nat, 1).
Proof.
  destruct (grid_view_cases
              (observe (Answered MoreSamples.one_template)) "Tokyo"
              (map Templates.card (Templates.data MoreSamples.one_template)))
    as (_ & _ & Hpage & _); [ reflexivity | ].
  destruct (Hpage MoreSamples.one_template eq_refl) as (_ & _ & _ & Hfooter).
  exact Hfooter.
Defined.
